(** * Unemployment visualisation endpoint (project/app/api/viz.py)

    A shallow embedding of the request normaliser, the series aligner, the
    trailing-mean comparator and the figure assembly of [viz.py], followed
    by the properties of the specification that concern them.

    Conventions of the embedding.
    - Python [str] is [string]; the optional query parameters
      ([Optional[str]]) are [option string], [None] being Python's [None].
      [upper] and [title] are the case maps of ASCII; they are those of
      [str] on the strings that [isascii] accepts, and a statement that
      depends on the case map of an arbitrary string assumes [isascii].
    - The [Percent] column holds doubles: a [float] is an IEEE 754
      binary64 value, and [>], [<] and [==] are the comparisons of the
      standard (every comparison with [NaN] is false).  [np.mean] belongs
      to numpy and pandas, which choose the order of the additions; it is
      a parameter of the embedding (the class [np.Mean]), and the
      properties hold for every function put in its place.
    - A frame carries the dtype of its Date column.  [pd.read_csv] with
      [parse_dates] leaves the DATE column of a file that has only the
      header as strings (dtype object), and the [.dt] accessor raises
      [AttributeError] on such a column; a frame with parsed dates keeps
      them under a boolean mask, also when no row is left.  The dates and
      percentages that the provider serves are taken to parse.
    - [pd.read_csv] is a call to the upstream provider: the provider is a
      function from URLs to frames, and every call is appended to a log, so
      that "no retrieval was attempted" is "the log is unchanged".
    - Exceptions are values of [exn]; a handler returns [Raise e] or
      [Ok r]. *)

From stdpp Require Import base numbers strings list gmap pretty.
From Stdlib Require Import Ascii SpecFloat.

Local Open Scope Z_scope.

(** ** Python primitives used by the module *)

Module Py.

(** Truth value of a [str]: the empty string is falsy. *)
Definition truthy_str (s : string) : bool :=
  match s with
  | EmptyString => false
  | String _ _ => true
  end.

(** Truth value of an [Optional[str]]: [None] and [''] are falsy. *)
Definition truthy (o : option string) : bool :=
  match o with
  | None => false
  | Some s => truthy_str s
  end.

Definition is_lower (c : ascii) : bool :=
  let n := N_of_ascii c in ((97 <=? n) && (n <=? 122))%N.

Definition is_upper (c : ascii) : bool :=
  let n := N_of_ascii c in ((65 <=? n) && (n <=? 90))%N.

Definition is_cased (c : ascii) : bool := is_lower c || is_upper c.

Definition upper_ascii (c : ascii) : ascii :=
  if is_lower c then ascii_of_N (N_of_ascii c - 32) else c.

Definition lower_ascii (c : ascii) : ascii :=
  if is_upper c then ascii_of_N (N_of_ascii c + 32) else c.

(** [str.isascii] *)
Fixpoint isascii (s : string) : bool :=
  match s with
  | EmptyString => true
  | String c s' => (N_of_ascii c <? 128)%N && isascii s'
  end.

(** [str.upper] *)
Fixpoint upper (s : string) : string :=
  match s with
  | EmptyString => EmptyString
  | String c s' => String (upper_ascii c) (upper s')
  end.

(** [str.title]: a character that follows a cased character is
    lower-cased, any other is upper-cased. *)
Fixpoint title_from (previous_is_cased : bool) (s : string) : string :=
  match s with
  | EmptyString => EmptyString
  | String c s' =>
      String (if previous_is_cased then lower_ascii c else upper_ascii c)
             (title_from (is_cased c) s')
  end.

Definition title (s : string) : string := title_from false s.

(** [str(n)] for an [int]. *)
Definition str (n : Z) : string := pretty n.

(** An [Optional[str]] inside an f-string: [None] prints as "None". *)
Definition fmt (o : option string) : string :=
  match o with
  | None => "None"
  | Some s => s
  end.

(** [==] between two [Optional[str]] values. *)
Definition eqb (a b : option string) : bool := bool_decide (a = b).

(** A [float] (and a [numpy.float64]): an IEEE 754 binary64 value. *)
Definition float : Type := spec_float.

Definition NaN : float := S754_nan.

(** [a > b], [a < b] and [a == b] on floats. *)
Definition gt (a b : float) : bool := SFltb b a.

Definition lt (a b : float) : bool := SFltb a b.

Definition eq (a b : float) : bool := SFeqb a b.

(** [float(n)] for an [int], rounded to nearest. *)
Definition of_Z (n : Z) : float := binary_normalize 53 1024 n 0 false.

(** The double with mantissa [m] and exponent [e]: [m * 2 ^ e]. *)
Definition double (m : positive) (e : Z) : float := S754_finite false m e.

(** [a + b] and [a / b] on floats. *)
Definition add (a b : float) : float := SFadd 53 1024 a b.

Definition div (a b : float) : float := SFdiv 53 1024 a b.

End Py.

(** The part of numpy that the handlers use. *)
Module np.

(** [np.mean] of a column of floats. *)
Class Mean : Type := mean : list Py.float → Py.float.

End np.

(** ** Exceptions and the two monads of the handlers *)

Inductive exn : Type :=
| HTTPException (status_code : Z) (detail : string)
| ValueError
| AttributeError
| URLError.

Inductive result (A : Type) : Type :=
| Ok (a : A)
| Raise (e : exn).
Arguments Ok {A} a.
Arguments Raise {A} e.

#[global] Instance result_ret : MRet result := fun _ a => Ok a.
#[global] Instance result_bind : MBind result := fun _ _ f m =>
  match m with
  | Ok a => f a
  | Raise e => Raise e
  end.

(** A computation that may call the provider: it threads the log of the
    URLs retrieved so far. *)
Definition io (A : Type) : Type := list string → result A * list string.

#[global] Instance io_ret : MRet io := fun _ a log => (Ok a, log).
#[global] Instance io_bind : MBind io := fun _ _ f m log =>
  match m log with
  | (Ok a, log') => f a log'
  | (Raise e, log') => (Raise e, log')
  end.

Definition raise {A : Type} (e : exn) : io A := fun log => (Raise e, log).

Definition lift {A : Type} (r : result A) : io A := fun log => (r, log).

(** ** Data model *)

Record Timestamp : Type := mkTimestamp { year : Z; month : Z; day : Z }.

(** One observation of a series, after the columns are renamed to
    ['Date', 'Percent']. *)
Record Row : Type := mkRow { Date : Timestamp; Percent : Py.float }.

(** A frame of two columns: [header_only] is what [read_csv] returns for
    a file without observations (no row, and a Date column of dtype
    object); [observations rows] has a Date column of dtype datetime64. *)
Inductive DataFrame : Type :=
| header_only
| observations (rows : list Row).

Definition rows (df : DataFrame) : list Row :=
  match df with
  | header_only => []
  | observations rows => rows
  end.

Coercion rows : DataFrame >-> list.

(** [df['Date'].dt]: the accessor of a column of dates. *)
Definition dt (df : DataFrame) : result (list Timestamp) :=
  match df with
  | header_only => Raise AttributeError
  | observations rows => Ok (Date <$> rows)
  end.

(** [df[mask]]: the rows that satisfy the mask; the dtypes are kept. *)
Definition select (mask : Row → Prop) `{∀ r, Decision (mask r)}
    (df : DataFrame) : DataFrame :=
  match df with
  | header_only => header_only
  | observations rows => observations (filter mask rows)
  end.

(** The part of [plotly.graph_objects] that the handlers use. *)
Module go.

Record Scatter : Type := mkScatter {
  x : list Timestamp;
  y : list Py.float;
  name : option string;
  line_color : option string;
  line_dash : option string
}.

Record Layout : Type := mkLayout {
  paper_bgcolor : option string;
  plot_bgcolor : option string;
  title_text : option string;
  font_family : option string;
  font_size : option Z;
  legend_title : option string;
  height : option Z;
  width : option Z;
  xaxis_title : option string;
  yaxis_title : option string
}.

Record Figure : Type := mkFigure { data : list Scatter; layout : Layout }.

(** [go.Layout(paper_bgcolor=.., plot_bgcolor=..)] *)
Definition new_layout (paper plot : string) : Layout :=
  {| paper_bgcolor := Some paper; plot_bgcolor := Some plot;
     title_text := None; font_family := None; font_size := None;
     legend_title := None; height := None; width := None;
     xaxis_title := None; yaxis_title := None |}.

(** [go.Figure(layout=layout)] *)
Definition new_figure (l : Layout) : Figure := {| data := []; layout := l |}.

(** [fig.add_trace(trace)] *)
Definition add_trace (t : Scatter) (fig : Figure) : Figure :=
  {| data := data fig ++ [t]; layout := layout fig |}.

(** [fig.update_layout(title_text=.., font=dict(family=.., size=..),
    legend_title=.., height=.., width=..)]; [height] and [width] are
    left as they are when the call does not pass them. *)
Definition update_layout (title : option string) (family : string)
    (size : Z) (legend : string) (hw : option (Z * Z)) (fig : Figure)
    : Figure :=
  let l := layout fig in
  {| data := data fig;
     layout :=
       {| paper_bgcolor := paper_bgcolor l; plot_bgcolor := plot_bgcolor l;
          title_text := title;
          font_family := Some family; font_size := Some size;
          legend_title := Some legend;
          height := match hw with Some (h, _) => Some h | None => height l end;
          width := match hw with Some (_, w) => Some w | None => width l end;
          xaxis_title := xaxis_title l; yaxis_title := yaxis_title l |} |}.

(** [fig.update_xaxes(title=..)] *)
Definition update_xaxes (t : string) (fig : Figure) : Figure :=
  let l := layout fig in
  {| data := data fig;
     layout :=
       {| paper_bgcolor := paper_bgcolor l; plot_bgcolor := plot_bgcolor l;
          title_text := title_text l;
          font_family := font_family l; font_size := font_size l;
          legend_title := legend_title l;
          height := height l; width := width l;
          xaxis_title := Some t; yaxis_title := yaxis_title l |} |}.

(** [fig.update_yaxes(title=..)] *)
Definition update_yaxes (t : string) (fig : Figure) : Figure :=
  let l := layout fig in
  {| data := data fig;
     layout :=
       {| paper_bgcolor := paper_bgcolor l; plot_bgcolor := plot_bgcolor l;
          title_text := title_text l;
          font_family := font_family l; font_size := font_size l;
          legend_title := legend_title l;
          height := height l; width := width l;
          xaxis_title := xaxis_title l; yaxis_title := Some t |} |}.

End go.

(** What the endpoint hands back to the framework. *)
Inductive Response : Type :=
| to_json (fig : go.Figure)
| StreamingResponse (fig : go.Figure) (media_type : string)
| PyNone.

#[global] Instance Timestamp_eq_dec : EqDecision Timestamp.
Proof. solve_decision. Defined.
#[global] Instance float_eq_dec : EqDecision Py.float.
Proof. unfold Py.float. solve_decision. Defined.
#[global] Instance Row_eq_dec : EqDecision Row.
Proof. solve_decision. Defined.
#[global] Instance DataFrame_eq_dec : EqDecision DataFrame.
Proof. solve_decision. Defined.

(** ** The module [viz.py] *)

(** The registry of the 50 states and the federal district. *)
Definition statecodes : gmap string string :=
  list_to_map [
    ("AL", "Alabama"); ("AK", "Alaska"); ("AZ", "Arizona"); ("AR", "Arkansas");
    ("CA", "California"); ("CO", "Colorado"); ("CT", "Connecticut");
    ("DE", "Delaware"); ("DC", "District of Columbia"); ("FL", "Florida");
    ("GA", "Georgia"); ("HI", "Hawaii"); ("ID", "Idaho"); ("IL", "Illinois");
    ("IN", "Indiana"); ("IA", "Iowa"); ("KS", "Kansas"); ("KY", "Kentucky");
    ("LA", "Louisiana"); ("ME", "Maine"); ("MD", "Maryland");
    ("MA", "Massachusetts"); ("MI", "Michigan"); ("MN", "Minnesota");
    ("MS", "Mississippi"); ("MO", "Missouri"); ("MT", "Montana");
    ("NE", "Nebraska"); ("NV", "Nevada"); ("NH", "New Hampshire");
    ("NJ", "New Jersey"); ("NM", "New Mexico"); ("NY", "New York");
    ("NC", "North Carolina"); ("ND", "North Dakota"); ("OH", "Ohio");
    ("OK", "Oklahoma"); ("OR", "Oregon"); ("PA", "Pennsylvania");
    ("RI", "Rhode Island"); ("SC", "South Carolina"); ("SD", "South Dakota");
    ("TN", "Tennessee"); ("TX", "Texas"); ("UT", "Utah"); ("VT", "Vermont");
    ("VA", "Virginia"); ("WA", "Washington"); ("WV", "West Virginia");
    ("WI", "Wisconsin"); ("WY", "Wyoming")
  ].

(** [code in statecodes], for a [str]. *)
Definition in_statecodes (code : string) : bool :=
  bool_decide (is_Some (statecodes !! code)).

(** [code in statecodes], for an [Optional[str]]: [None] is not a key. *)
Definition opt_in_statecodes (code : option string) : bool :=
  match code with
  | None => false
  | Some s => in_statecodes s
  end.

(** [if code: code = code.upper()]: an absent or empty query parameter is
    left as it is. *)
Definition upper_slot (code : option string) : option string :=
  if Py.truthy code then Py.upper <$> code else code.

(** [statecodes.get(code)] for an [Optional[str]]. *)
Definition statecodes_get (code : option string) : option string :=
  code ≫= (statecodes !!.).

(** [min(column)]: the builtin raises [ValueError] on an empty column. *)
Definition py_min (l : list Z) : result Z :=
  match l with
  | [] => Raise ValueError
  | z :: l' => Ok (foldl Z.min z l')
  end.

(** [df['Date'].dt.year], [.dt.month] and [.dt.day] *)
Definition dt_year (df : DataFrame) : result (list Z) :=
  dt df ≫= λ dates : list Timestamp, mret (year <$> dates).
Definition dt_month (df : DataFrame) : result (list Z) :=
  dt df ≫= λ dates : list Timestamp, mret (month <$> dates).
Definition dt_day (df : DataFrame) : result (list Z) :=
  dt df ≫= λ dates : list Timestamp, mret (day <$> dates).

(** "Restructure US to match state unemployment start dates", as
    [single], [two] and [three] write it: one conjunct per state frame
    and per date component.  Each conjunct takes the accessor of the
    national Date column first (the first one is the one that can fail)
    and then the minimum over the state column; the conjuncts are
    evaluated from left to right. *)
Definition align_single (df df_us : DataFrame) : result DataFrame :=
  _ ← dt df_us;
  y1 ← dt_year df ≫= py_min;
  m1 ← dt_month df ≫= py_min;
  d1 ← dt_day df ≫= py_min;
  mret (select (λ r, y1 ≤ year (Date r) ∧
                     m1 ≤ month (Date r) ∧
                     d1 ≤ day (Date r)) df_us).

Definition align_two (df df_2 df_us : DataFrame) : result DataFrame :=
  _ ← dt df_us;
  y1 ← dt_year df ≫= py_min;
  y2 ← dt_year df_2 ≫= py_min;
  m1 ← dt_month df ≫= py_min;
  m2 ← dt_month df_2 ≫= py_min;
  d1 ← dt_day df ≫= py_min;
  d2 ← dt_day df_2 ≫= py_min;
  mret (select (λ r, y1 ≤ year (Date r) ∧ y2 ≤ year (Date r) ∧
                     m1 ≤ month (Date r) ∧ m2 ≤ month (Date r) ∧
                     d1 ≤ day (Date r) ∧ d2 ≤ day (Date r)) df_us).

Definition align_three (df df_2 df_3 df_us : DataFrame) : result DataFrame :=
  _ ← dt df_us;
  y1 ← dt_year df ≫= py_min;
  y2 ← dt_year df_2 ≫= py_min;
  y3 ← dt_year df_3 ≫= py_min;
  m1 ← dt_month df ≫= py_min;
  m2 ← dt_month df_2 ≫= py_min;
  m3 ← dt_month df_3 ≫= py_min;
  d1 ← dt_day df ≫= py_min;
  d2 ← dt_day df_2 ≫= py_min;
  d3 ← dt_day df_3 ≫= py_min;
  mret (select (λ r, y1 ≤ year (Date r) ∧ y2 ≤ year (Date r) ∧
                     y3 ≤ year (Date r) ∧
                     m1 ≤ month (Date r) ∧ m2 ≤ month (Date r) ∧
                     m3 ≤ month (Date r) ∧
                     d1 ≤ day (Date r) ∧ d2 ≤ day (Date r) ∧
                     d3 ≤ day (Date r)) df_us).

Definition fred_csv : string := "https://fred.stlouisfed.org/graph/fredgraph.csv?id=".
Definition us_url : string := fred_csv +:+ "UNRATE".
Definition state_url (statecode : option string) : string :=
  fred_csv +:+ Py.fmt statecode +:+ "UR".

Definition red : string := "#CC0000".
Definition green : string := "#4BB543".
Definition darkcyan : string := "darkcyan".
Definition black : string := "black".
Definition transparent : string := "rgba(0,0,0,0)".
Definition open_sans : string := "Open Sans, extra bold".

Section viz.

Context `{numpy : !np.Mean}.

(** [datetime.now().year] at the time the module is loaded. *)
Variable now_year : Z.

(** The upstream provider: the frame served at a URL, [None] when the
    retrieval fails. *)
Variable fred : string → option DataFrame.

(** "Five years ago": a module-level constant, computed once. *)
Definition five_yrs : Z := now_year - 5.

(** [pd.read_csv(url, parse_dates=['DATE'])] *)
Definition read_csv (url : string) : io DataFrame := fun log =>
  (match fred url with
   | Some df => Ok df
   | None => Raise URLError
   end, log ++ [url]).

(** [np.mean(df[(df['Date'].dt.year == five_yrs)]['Percent'])] *)
Definition mean_5yrs (df : DataFrame) : result Py.float :=
  _ ← dt df;
  mret (np.mean (Percent <$> rows (select (λ r, year (Date r) = five_yrs) df))).

Definition since : string := " since " +:+ Py.str five_yrs +:+ ".".

(** The comparison of [single]: the [style] dictionary it fills. *)
Definition single_style (statename : option string)
    (st_5yrs us_5yrs : Py.float) : gmap string string :=
  let style : gmap string string := ∅ in
  if Py.gt st_5yrs us_5yrs then
    let style := <["title" := Py.fmt statename +:+
      " Unemployment Rates Averaged Higher than the United States" +:+ since]> style in
    let style := <["state1color" := red]> style in
    <["us_color" := green]> style
  else if Py.lt st_5yrs us_5yrs then
    let style := <["title" := Py.fmt statename +:+
      " Unemployment Rates Averaged Lower than the United States" +:+ since]> style in
    let style := <["state1color" := green]> style in
    <["us_color" := red]> style
  else if Py.eq st_5yrs us_5yrs then
    let style := <["title" := Py.fmt statename +:+
      " Averaged the Same Unemployment as the United States" +:+ since]> style in
    let style := <["state1color" := green]> style in
    <["us_color" := darkcyan]> style
  else style.

(** The comparison of [two]. *)
Definition two_style (statename state2 : option string)
    (st_5yrs st2_5yrs : Py.float) : gmap string string :=
  let style : gmap string string := ∅ in
  if Py.gt st_5yrs st2_5yrs then
    let style := <["title" := Py.fmt statename +:+
      " Averaged Higher Unemployment than " +:+ Py.fmt state2 +:+ since]> style in
    let style := <["state1color" := red]> style in
    let style := <["state2color" := green]> style in
    <["us_color" := black]> style
  else if Py.lt st_5yrs st2_5yrs then
    let style := <["title" := Py.fmt statename +:+
      " Averaged Lower Unemployment than " +:+ Py.fmt state2 +:+ since]> style in
    let style := <["state1color" := green]> style in
    let style := <["state2color" := red]> style in
    <["us_color" := black]> style
  else if Py.eq st_5yrs st2_5yrs then
    let style := <["title" := Py.fmt statename +:+ " and " +:+ Py.fmt state2 +:+
      " Averaged the Same Unemployment" +:+ since]> style in
    let style := <["state1color" := green]> style in
    let style := <["state2color" := darkcyan]> style in
    <["us_color" := black]> style
  else style.

(** What a branch of [three] writes into [style]. *)
Definition three_fill (title c1 c2 c3 : string)
    (style : gmap string string) : gmap string string :=
  let style := <["title" := title]> style in
  let style := <["state1color" := c1]> style in
  let style := <["state2color" := c2]> style in
  let style := <["state3color" := c3]> style in
  <["us_color" := black]> style.

Definition title_higher (statename state2 state3 : option string) : string :=
  Py.fmt statename +:+ " Averaged Higher Unemployment than " +:+
  Py.fmt state2 +:+ " and " +:+ Py.fmt state3 +:+ since.

Definition title_higher_lower (statename state2 state3 : option string) : string :=
  Py.fmt statename +:+ " Averaged Higher Unemployment than " +:+
  Py.fmt state3 +:+ ", but lower than " +:+ Py.fmt state2 +:+ since.

Definition title_lower (statename state2 state3 : option string) : string :=
  Py.fmt statename +:+ " Averaged Lower Unemployment than " +:+
  Py.fmt state2 +:+ " and " +:+ Py.fmt state3 +:+ since.

Definition title_lower_higher (statename state2 state3 : option string) : string :=
  Py.fmt statename +:+ " Averaged Lower Unemployment than " +:+
  Py.fmt state3 +:+ ", but higher than " +:+ Py.fmt state2 +:+ since.

(** The comparison of [three]: six branches, in the order of the source. *)
Definition three_style (statename state2 state3 : option string)
    (st_5yrs st2_5yrs st3_5yrs : Py.float) : gmap string string :=
  let style : gmap string string := ∅ in
  if Py.gt st_5yrs st2_5yrs && Py.gt st2_5yrs st3_5yrs then
    three_fill (title_higher statename state2 state3) red darkcyan green style
  else if Py.gt st_5yrs st3_5yrs && Py.gt st3_5yrs st2_5yrs then
    three_fill (title_higher statename state2 state3) red green darkcyan style
  else if Py.gt st2_5yrs st_5yrs && Py.gt st_5yrs st3_5yrs then
    three_fill (title_higher_lower statename state2 state3) darkcyan red green style
  else if Py.gt st2_5yrs st3_5yrs && Py.gt st3_5yrs st_5yrs then
    three_fill (title_lower statename state2 state3) green red darkcyan style
  else if Py.gt st3_5yrs st2_5yrs && Py.gt st2_5yrs st_5yrs then
    three_fill (title_lower statename state2 state3) green darkcyan red style
  else if Py.gt st3_5yrs st_5yrs && Py.gt st_5yrs st2_5yrs then
    three_fill (title_lower_higher statename state2 state3) darkcyan green red style
  else style.

(** A solid line for a state, a dashed one for the national series. *)
Definition state_trace (df : DataFrame) (name color : option string) : go.Scatter :=
  {| go.x := Date <$> rows df; go.y := Percent <$> rows df; go.name := name;
     go.line_color := color; go.line_dash := None |}.

Definition us_trace (df_us : DataFrame) (color : option string) : go.Scatter :=
  {| go.x := Date <$> rows df_us; go.y := Percent <$> rows df_us;
     go.name := Some "United States";
     go.line_color := color; go.line_dash := Some "dash" |}.

(** The two ways a handler returns its figure. *)
Definition respond (view : option string) (fig : go.Figure) : Response :=
  if Py.truthy view then StreamingResponse fig "image/png" else to_json fig.

(** Single state visualization *)
Definition single (statecode : string) (view : option string) : io Response :=
  let statename := statecodes !! statecode in
  df ← read_csv (state_url (Some statecode));
  df_us ← read_csv us_url;
  df_us ← lift (align_single df df_us);
  us_5yrs ← lift (mean_5yrs df_us);
  st_5yrs ← lift (mean_5yrs df);
  let style := single_style statename st_5yrs us_5yrs in
  let fig := go.new_figure (go.new_layout transparent transparent) in
  let fig := go.add_trace (state_trace df statename (style !! "state1color")) fig in
  let fig := go.add_trace (us_trace df_us (style !! "us_color")) fig in
  let fig := go.update_layout (style !! "title") open_sans 9 "States" None fig in
  let fig := go.update_xaxes "Date" fig in
  let fig := go.update_yaxes "Percent Unemployed" fig in
  mret (respond view fig).

(** Creates and styles a visualization to compare 2 states' unemployment *)
Definition two (statecode : string) (statecode2 view : option string)
    : io Response :=
  let statename := statecodes !! statecode in
  let state2 := statecodes_get statecode2 in
  df ← read_csv (state_url (Some statecode));
  df_2 ← read_csv (state_url statecode2);
  df_us ← read_csv us_url;
  df_us ← lift (align_two df df_2 df_us);
  st_5yrs ← lift (mean_5yrs df);
  st2_5yrs ← lift (mean_5yrs df_2);
  let style := two_style statename state2 st_5yrs st2_5yrs in
  let fig := go.new_figure (go.new_layout transparent transparent) in
  let fig := go.add_trace (state_trace df statename (style !! "state1color")) fig in
  let fig := go.add_trace (state_trace df_2 state2 (style !! "state2color")) fig in
  let fig := go.add_trace (us_trace df_us (style !! "us_color")) fig in
  let fig := go.update_layout (style !! "title") open_sans 9 "States"
               (Some (412, 640)) fig in
  let fig := go.update_xaxes "Date" fig in
  let fig := go.update_yaxes "Percent Unemployed" fig in
  mret (respond view fig).

(** Creates and styles a visualization to compare 3 states' unemployment *)
Definition three (statecode : string) (statecode2 statecode3 view : option string)
    : io Response :=
  let statename := statecodes !! statecode in
  let state2 := statecodes_get statecode2 in
  let state3 := statecodes_get statecode3 in
  df ← read_csv (state_url (Some statecode));
  df_2 ← read_csv (state_url statecode2);
  df_3 ← read_csv (state_url statecode3);
  df_us ← read_csv us_url;
  df_us ← lift (align_three df df_2 df_3 df_us);
  st_5yrs ← lift (mean_5yrs df);
  st2_5yrs ← lift (mean_5yrs df_2);
  st3_5yrs ← lift (mean_5yrs df_3);
  let style := three_style statename state2 state3 st_5yrs st2_5yrs st3_5yrs in
  let fig := go.new_figure (go.new_layout transparent transparent) in
  let fig := go.add_trace (state_trace df statename (style !! "state1color")) fig in
  let fig := go.add_trace (us_trace df_us (style !! "us_color")) fig in
  let fig := go.add_trace (state_trace df_2 state2 (style !! "state2color")) fig in
  let fig := go.add_trace (state_trace df_3 state3 (style !! "state3color")) fig in
  let fig := go.update_layout (style !! "title") open_sans 9 "States" None fig in
  let fig := go.update_xaxes "Date" fig in
  let fig := go.update_yaxes "Percent Unemployed" fig in
  mret (respond view fig).

Definition not_found (code : option string) : exn :=
  HTTPException 404 ("State code " +:+ Py.fmt code +:+ " not found").

(** [view and view.title() == 'True'] *)
Definition wants_png (view : option string) : bool :=
  Py.truthy view && bool_decide (Py.title <$> view = Some "True").

(** The slots after the four deduplication statements. *)
Definition dedup (statecode : string) (statecode2 statecode3 : option string)
    : option string * option string :=
  (* CASE: Statecode 1 = 2 = 3 *)
  let '(statecode2, statecode3) :=
    if Py.eqb (Some statecode) statecode2 && Py.eqb statecode2 statecode3
    then (None, None) else (statecode2, statecode3) in
  (* CASE: Statecode 1 = 3 *)
  let statecode3 :=
    if Py.eqb (Some statecode) statecode3 then None else statecode3 in
  (* CASE: Statecode 2 = 3 *)
  let statecode3 :=
    if Py.eqb statecode2 statecode3 then None else statecode3 in
  (* CASE: Statecode 1 = 2 *)
  if Py.eqb (Some statecode) statecode2 then
    if Py.truthy statecode3 then (statecode3, None)
    else (None, statecode3)
  else (statecode2, statecode3).

(** The three dispatch statements; falling through all of them returns
    [None]. *)
Definition dispatch (statecode : string) (statecode2 statecode3 view : option string)
    : io Response :=
  if Py.truthy_str statecode && negb (Py.truthy statecode2)
     && negb (Py.truthy statecode3) then
    if wants_png view then single statecode (Some "True")
    else single statecode None
  else if Py.truthy_str statecode && Py.truthy statecode2
          && negb (Py.truthy statecode3) then
    if wants_png view then two statecode statecode2 (Some "True")
    else two statecode statecode2 None
  else if Py.truthy_str statecode && Py.truthy statecode2
          && Py.truthy statecode3 then
    if wants_png view then three statecode statecode2 statecode3 (Some "True")
    else three statecode statecode2 statecode3 None
  else mret PyNone.

(** [GET /viz/{statecode}?statecode2=&statecode3=&view=] *)
Definition unemployment_visualization (statecode : string)
    (statecode2 statecode3 view : option string) : io Response :=
  let statecode := Py.upper statecode in
  let statecode2 := upper_slot statecode2 in
  let statecode3 := upper_slot statecode3 in
  if negb (in_statecodes statecode) then
    raise (not_found (Some statecode))
  else if negb (opt_in_statecodes statecode2) && Py.truthy statecode2 then
    raise (not_found statecode2)
  else if negb (opt_in_statecodes statecode3) && Py.truthy statecode3 then
    raise (not_found statecode3)
  else
    let '(statecode2, statecode3) := dedup statecode statecode2 statecode3 in
    dispatch statecode statecode2 statecode3 view.

End viz.

(** ** Notions of the specification *)

(** The trailing mean of a series: [np.mean] of the percentages of the
    observations whose year is the current year minus 5. *)
Definition trailing_mean `{!np.Mean} (now_year : Z) (series : list Row) : Py.float :=
  np.mean (Percent <$> filter (λ r, year (Date r) = now_year - 5) series).

(** The Date column of the frame holds dates. *)
Definition dated (df : DataFrame) : bool :=
  match df with
  | header_only => false
  | observations _ => true
  end.

(** The frame holds dates and at least one observation. *)
Definition observed (df : DataFrame) : bool :=
  match df with
  | observations (_ :: _) => true
  | _ => false
  end.

(** What the aligner raises on a state frame: [AttributeError] from
    [.dt] on a frame without dates, [ValueError] from [min] on a frame with
    dates and no row. *)
Definition state_error (df : DataFrame) : option exn :=
  match df with
  | header_only => Some AttributeError
  | observations [] => Some ValueError
  | observations (_ :: _) => None
  end.

(** The first error of the aligner on the state frames of a handler, in
    slot order, and the national frame: the national Date column is
    accessed first. *)
Definition aligner_error (states : list DataFrame) (df_us : DataFrame) : option exn :=
  if dated df_us then head (omap state_error states) else Some AttributeError.

(** A frame that [read_csv] returns for a file of the provider: the
    header alone, or observations. *)
Definition as_read (df : DataFrame) : bool :=
  match df with
  | observations [] => false
  | _ => true
  end.

(** The place of a float that is not [NaN] in the order of the floats:
    its class (infinities, negative, zero, positive), then exponent and
    mantissa. *)
Definition place (a : Py.float) : Z * Z * Z :=
  match a with
  | S754_zero _ => (0, 0, 0)
  | S754_infinity s => (if s then -2 else 2, 0, 0)
  | S754_nan => (0, 0, 0)
  | S754_finite s m e => if s then (-1, - e, Z.neg m) else (1, e, Z.pos m)
  end.

Definition before (p q : Z * Z * Z) : Prop :=
  p.1.1 < q.1.1 ∨
  (p.1.1 = q.1.1 ∧ (p.1.2 < q.1.2 ∨ (p.1.2 = q.1.2 ∧ p.2 < q.2))).

(** The three means are pairwise comparable and pairwise different: they
    form one of the six strict total orderings. *)
Definition strict_order (a b c : Py.float) : Prop :=
  (Py.lt a b ∨ Py.lt b a) ∧ (Py.lt b c ∨ Py.lt c b) ∧ (Py.lt a c ∨ Py.lt c a).

(** Some two of the three means are equal. *)
Definition tied (a b c : Py.float) : Prop :=
  Py.eq a b ∨ Py.eq b c ∨ Py.eq a c.

(** The conditions of the six branches of [three], in source order. *)
Definition three_conditions (st_5yrs st2_5yrs st3_5yrs : Py.float) : list bool :=
  [ Py.gt st_5yrs st2_5yrs && Py.gt st2_5yrs st3_5yrs;
    Py.gt st_5yrs st3_5yrs && Py.gt st3_5yrs st2_5yrs;
    Py.gt st2_5yrs st_5yrs && Py.gt st_5yrs st3_5yrs;
    Py.gt st2_5yrs st3_5yrs && Py.gt st3_5yrs st_5yrs;
    Py.gt st3_5yrs st2_5yrs && Py.gt st2_5yrs st_5yrs;
    Py.gt st3_5yrs st_5yrs && Py.gt st_5yrs st2_5yrs ].

(** The six narratives of [three], in source order: the title and the
    colors of state 1, state 2 and state 3. *)
Definition three_narratives (now_year : Z) (statename state2 state3 : option string)
    : list (string * (string * string * string)) :=
  [ (title_higher now_year statename state2 state3, (red, darkcyan, green));
    (title_higher now_year statename state2 state3, (red, green, darkcyan));
    (title_higher_lower now_year statename state2 state3, (darkcyan, red, green));
    (title_lower now_year statename state2 state3, (green, red, darkcyan));
    (title_lower now_year statename state2 state3, (green, darkcyan, red));
    (title_lower_higher now_year statename state2 state3, (darkcyan, green, red)) ].

(** The color the specification gives a state by the rank of its mean among
    the two others: green for the lowest, red for the highest, teal for the
    middle one. *)
Definition rank_color (m other1 other2 : Py.float) : string :=
  if Py.lt m other1 && Py.lt m other2 then green
  else if Py.gt m other1 && Py.gt m other2 then red
  else darkcyan.

(** The deduplication policy in the words of the specification, on three
    codes that are all present; the result is the list of codes kept. *)
Definition spec_dedup (code1 code2 code3 : string) : list string :=
  if bool_decide (code1 = code2 ∧ code2 = code3) then [code1]
  else if bool_decide (code1 = code3) then [code1; code2]
  else if bool_decide (code2 = code3) then [code1; code2]
  else if bool_decide (code1 = code2) then
    if Py.truthy_str code3 then [code1; code3] else [code1]
  else [code1; code2; code3].

(** The builder a request of one, two or three codes is handed to. *)
Definition builder `{!np.Mean} (now_year : Z) (fred : string → option DataFrame)
    (request : list string) (view : option string) : io Response :=
  match request with
  | [c1] =>
      single now_year fred c1 (if wants_png view then Some "True" else None)
  | [c1; c2] =>
      two now_year fred c1 (Some c2) (if wants_png view then Some "True" else None)
  | [c1; c2; c3] =>
      three now_year fred c1 (Some c2) (Some c3)
        (if wants_png view then Some "True" else None)
  | _ => mret PyNone
  end.

(** A date component of [r] is at least the minimum of that component over
    [df]: some observation of [df] has a component that is not larger. *)
Definition reaches (field : Timestamp → Z) (df : list Row) (r : Row) : Prop :=
  Exists (λ o, field (Date o) ≤ field (Date r)) df.

(** [r] meets the minimum year, the minimum month and the minimum day of
    [df], each taken on its own. *)
Definition meets_start (df : list Row) (r : Row) : Prop :=
  reaches year df r ∧ reaches month df r ∧ reaches day df r.

#[global] Instance reaches_dec field df r : Decision (reaches field df r).
Proof. unfold reaches. apply _. Defined.

#[global] Instance meets_start_dec df r : Decision (meets_start df r).
Proof. unfold meets_start. apply _. Defined.

(** The aligner with each minimum taken over all the requested state
    series together. *)
Definition align_pooled (states : list DataFrame) (df_us : DataFrame) : DataFrame :=
  select (meets_start (concat (rows <$> states))) df_us.

(** Calendar order on dates. *)
Definition date_le (d e : Timestamp) : Prop :=
  year d < year e ∨
  (year d = year e ∧ (month d < month e ∨ (month d = month e ∧ day d ≤ day e))).

#[global] Instance date_le_dec d e : Decision (date_le d e).
Proof. unfold date_le. apply _. Defined.

(** The filter "date >= start". *)
Definition from_date (start : Timestamp) (df_us : DataFrame) : DataFrame :=
  select (λ r, date_le start (Date r)) df_us.

(** [sub in s] *)
Fixpoint contains (sub s : string) : bool :=
  String.prefix sub s ||
  match s with
  | EmptyString => false
  | String _ s' => contains sub s'
  end.

(** The codes of the request are ASCII strings: [str.upper] is then the
    case map of the embedding. *)
Definition ascii_request (statecode : string) (statecode2 statecode3 : option string)
    : Prop :=
  Forall (λ code, Py.isascii code)
         (statecode :: option_list statecode2 ++ option_list statecode3).

(** The codes the endpoint validates, in the order it validates them: the
    path parameter always, a query parameter when it is not empty. *)
Definition slot_codes (code : option string) : list string :=
  if Py.truthy code then option_list (Py.upper <$> code) else [].

Definition validated (statecode : string) (statecode2 statecode3 : option string)
    : list string :=
  Py.upper statecode :: slot_codes statecode2 ++ slot_codes statecode3.

(** The first validated code that is not registered. *)
Definition first_offending (statecode : string) (statecode2 statecode3 : option string)
    : option string :=
  List.find (λ s, negb (in_statecodes s)) (validated statecode statecode2 statecode3).

(** The percentages of a series observed in year [y], collected in one
    pass over the series. *)
Fixpoint window (y : Z) (series : list Row) : list Py.float :=
  match series with
  | [] => []
  | r :: series' =>
      if bool_decide (year (Date r) = y) then Percent r :: window y series'
      else window y series'
  end.

(** The series of a chart as the legend shows them: name and line color,
    in the order the traces were added. *)
Definition legend (fig : go.Figure) : list (option string * option string) :=
  (λ t, (go.name t, go.line_color t)) <$> go.data fig.

(** The dash style of each trace. *)
Definition dashes (fig : go.Figure) : list (option string) :=
  go.line_dash <$> go.data fig.

Definition title_of (fig : go.Figure) : option string :=
  go.title_text (go.layout fig).

(** ** A provider used in the examples *)

Definition obs (y m d : Z) (percent : Z) : Row :=
  mkRow (mkTimestamp y m d) (Py.of_Z percent).

Definition df_CA : DataFrame :=
  observations [obs 2020 12 1 7; obs 2021 1 1 6; obs 2021 2 1 4].
Definition df_NY : DataFrame := observations [obs 2020 1 1 5; obs 2021 1 1 4].
Definition df_TX : DataFrame := observations [obs 2021 1 1 3; obs 2021 2 1 3].
Definition df_OR : DataFrame := observations [obs 2021 3 1 5].
Definition df_US : DataFrame :=
  observations [obs 2019 1 1 9; obs 2021 1 1 4; obs 2021 2 1 4].

(** The doubles that the decimals 3.1, 3.7 and 3.4 denote. *)
Definition three_point_one : Py.float := Py.double 0x18cccccccccccd (-51).
Definition three_point_seven : Py.float := Py.double 0x1d99999999999a (-51).
Definition three_point_four : Py.float := Py.double 0x1b333333333333 (-51).

(** A mean in double precision that adds from left to right and divides
    by the number of values ([nan] for no value).  It stands for
    [np.mean] where an example is run. *)
Definition left_to_right : np.Mean := λ column,
  Py.div (foldl Py.add (S754_zero false) column)
         (Py.of_Z (Z.of_nat (length column))).

Definition fred_demo (url : string) : option DataFrame :=
  if bool_decide (url = state_url (Some "CA")) then Some df_CA
  else if bool_decide (url = state_url (Some "NY")) then Some df_NY
  else if bool_decide (url = state_url (Some "TX")) then Some df_TX
  else if bool_decide (url = state_url (Some "OR")) then Some df_OR
  else if bool_decide (url = us_url) then Some df_US
  else None.

Definition nothing_served (url : string) : option DataFrame := None.

(** A provider that serves every series with its header and no
    observation. *)
Definition fred_header_only (url : string) : option DataFrame := Some header_only.

(** A state series that starts in June and a national series with a
    January and a June observation of the window year. *)
Definition june (percent : Z) : DataFrame := observations [obs 2021 6 1 percent].
Definition df_national : DataFrame :=
  observations [obs 2021 1 1 1; obs 2021 6 1 7].

Definition fred_june (percent : Z) (url : string) : option DataFrame :=
  if bool_decide (url = us_url) then Some df_national else Some (june percent).

(** ** Notions for the further properties *)

(** The chart [single] builds once the state frame is read and the national
    frame is aligned: the lines of [single] from "Styling" to the end. *)
Definition single_figure `{!np.Mean} (now_year : Z) (statename : option string)
    (df df_us : DataFrame) : go.Figure :=
  let us_5yrs := trailing_mean now_year df_us in
  let st_5yrs := trailing_mean now_year df in
  let style := single_style now_year statename st_5yrs us_5yrs in
  let fig := go.new_figure (go.new_layout transparent transparent) in
  let fig := go.add_trace (state_trace df statename (style !! "state1color")) fig in
  let fig := go.add_trace (us_trace df_us (style !! "us_color")) fig in
  let fig := go.update_layout (style !! "title") open_sans 9 "States" None fig in
  let fig := go.update_xaxes "Date" fig in
  go.update_yaxes "Percent Unemployed" fig.

(** The same for [two]. *)
Definition two_figure `{!np.Mean} (now_year : Z) (statename state2 : option string)
    (df df_2 df_us : DataFrame) : go.Figure :=
  let st_5yrs := trailing_mean now_year df in
  let st2_5yrs := trailing_mean now_year df_2 in
  let style := two_style now_year statename state2 st_5yrs st2_5yrs in
  let fig := go.new_figure (go.new_layout transparent transparent) in
  let fig := go.add_trace (state_trace df statename (style !! "state1color")) fig in
  let fig := go.add_trace (state_trace df_2 state2 (style !! "state2color")) fig in
  let fig := go.add_trace (us_trace df_us (style !! "us_color")) fig in
  let fig := go.update_layout (style !! "title") open_sans 9 "States"
               (Some (412, 640)) fig in
  let fig := go.update_xaxes "Date" fig in
  go.update_yaxes "Percent Unemployed" fig.

(** The same for [three]. *)
Definition three_figure `{!np.Mean} (now_year : Z) (statename state2 state3 : option string)
    (df df_2 df_3 df_us : DataFrame) : go.Figure :=
  let st_5yrs := trailing_mean now_year df in
  let st2_5yrs := trailing_mean now_year df_2 in
  let st3_5yrs := trailing_mean now_year df_3 in
  let style := three_style now_year statename state2 state3
                 st_5yrs st2_5yrs st3_5yrs in
  let fig := go.new_figure (go.new_layout transparent transparent) in
  let fig := go.add_trace (state_trace df statename (style !! "state1color")) fig in
  let fig := go.add_trace (us_trace df_us (style !! "us_color")) fig in
  let fig := go.add_trace (state_trace df_2 state2 (style !! "state2color")) fig in
  let fig := go.add_trace (state_trace df_3 state3 (style !! "state3color")) fig in
  let fig := go.update_layout (style !! "title") open_sans 9 "States" None fig in
  let fig := go.update_xaxes "Date" fig in
  go.update_yaxes "Percent Unemployed" fig.

(** The URLs of a list that are requested when they are read in order and
    the first failure stops the reading. *)
Fixpoint attempted (fred : string → option DataFrame) (urls : list string)
    : list string :=
  match urls with
  | [] => []
  | url :: rest =>
      url :: match fred url with
             | Some _ => attempted fred rest
             | None => []
             end
  end.

(** The chart inside a response, if it carries one. *)
Definition chart_of (r : Response) : option go.Figure :=
  match r with
  | to_json fig => Some fig
  | StreamingResponse fig _ => Some fig
  | PyNone => None
  end.

(** The different codes of a request in the order of their first
    appearance, upper-cased, empty slots left out. *)
Definition distinct_codes (statecode : string) (statecode2 statecode3 : option string)
    : list string :=
  Py.upper statecode ::
  remove_dups (filter (λ c, c ≠ Py.upper statecode)
                      (slot_codes statecode2 ++ slot_codes statecode3)).

(** Slot 2 is empty and slot 3 holds a code other than that of slot 1. *)
Definition gap (statecode : string) (statecode2 statecode3 : option string) : bool :=
  negb (Py.truthy statecode2) &&
  bool_decide (slot_codes statecode3 ≠ [] ∧
               slot_codes statecode3 ≠ [Py.upper statecode]).

(** A date whose month and day are those of a calendar date. *)
Definition calendar (d : Timestamp) : Prop :=
  1 ≤ month d ≤ 12 ∧ 1 ≤ day d ≤ 31.

(** What every chart of the endpoint has in common: the layout, one dashed
    trace (the national series) among solid ones, and a fixed size for the
    chart of two states only. *)
Definition chart_invariant (fig : go.Figure) : Prop :=
  let l := go.layout fig in
  go.paper_bgcolor l = Some "rgba(0,0,0,0)" ∧
  go.plot_bgcolor l = Some "rgba(0,0,0,0)" ∧
  go.xaxis_title l = Some "Date" ∧
  go.yaxis_title l = Some "Percent Unemployed" ∧
  go.legend_title l = Some "States" ∧
  go.font_family l = Some "Open Sans, extra bold" ∧
  go.font_size l = Some 9 ∧
  (2 ≤ length (go.data fig) ≤ 4)%nat ∧
  (∃ t, filter (λ t, go.line_dash t ≠ None) (go.data fig) = [t] ∧
        go.name t = Some "United States" ∧ go.line_dash t = Some "dash") ∧
  ((go.height l, go.width l) =
     if bool_decide (length (go.data fig) = 3%nat)
     then (Some 412, Some 640) else (None, None)).

(** ** Properties *)

(** *** The embedding on small inputs *)

Example upper_ca : Py.upper "ca" = "CA".
Proof. reflexivity. Qed.

Example title_true : Py.title "tRUE" = "True" ∧ Py.title "new york" = "New York".
Proof. by split. Qed.

Example wants_png_values :
  wants_png (Some "true") = true ∧ wants_png (Some "TRUE") = true ∧
  wants_png (Some "yes") = false ∧ wants_png (Some "") = false ∧
  wants_png None = false.
Proof. by vm_compute. Qed.

(** The registry has 51 entries. *)
Lemma statecodes_size : size statecodes = 51%nat.
Proof. by vm_compute. Qed.

Example str_year : Py.str (five_yrs 2026) = "2021".
Proof. by vm_compute. Qed.

(** No comparison holds of [NaN], not even equality with itself. *)
Example nan_compares_false (a : Py.float) :
  Py.gt Py.NaN a = false ∧ Py.lt Py.NaN a = false ∧ Py.eq Py.NaN a = false ∧
  Py.gt a Py.NaN = false ∧ Py.lt a Py.NaN = false ∧ Py.eq a Py.NaN = false.
Proof. by destruct a. Qed.

(** *** Comparisons of means *)

Lemma compare_place (a b : Py.float) :
  a ≠ Py.NaN → b ≠ Py.NaN →
  match SFcompare a b with
  | Some Lt => before (place a) (place b)
  | Some Eq => place a = place b
  | Some Gt => before (place b) (place a)
  | None => False
  end.
Proof.
  unfold before.
  destruct a as [sa|sa| |sa ma ea], b as [sb|sb| |sb mb eb]; try done; intros _ _;
    repeat match goal with s : bool |- _ => destruct s end;
    cbn; try first [reflexivity | lia].
  all: destruct (Z.compare_spec ea eb) as [->| |]; cbn; try lia.
  all: rewrite Pos.compare_cont_spec; cbn.
  all: destruct (Pos.compare_spec ma mb) as [->| |]; cbn; first [reflexivity | lia].
Qed.

Lemma compare_nan (a b : Py.float) :
  a = Py.NaN ∨ b = Py.NaN → SFcompare a b = None.
Proof. intros [->| ->]; by destruct a || destruct b. Qed.

Lemma lt_place (a b : Py.float) :
  Py.lt a b ↔ a ≠ Py.NaN ∧ b ≠ Py.NaN ∧ before (place a) (place b).
Proof.
  unfold Py.lt, SFltb.
  destruct (decide (a = Py.NaN)) as [->|Na]; [by destruct b; intuition|].
  destruct (decide (b = Py.NaN)) as [->|Nb]; [by destruct a; intuition|].
  pose proof (compare_place a b Na Nb) as H.
  destruct (SFcompare a b) as [[]|]; [| | |done].
  - split; [done|]. intros (_ & _ & Hb). rewrite H in Hb. unfold before in Hb. lia.
  - by split.
  - split; [done|]. intros (_ & _ & Hb). unfold before in *. lia.
Qed.

Lemma eq_place (a b : Py.float) :
  Py.eq a b ↔ a ≠ Py.NaN ∧ b ≠ Py.NaN ∧ place a = place b.
Proof.
  unfold Py.eq, SFeqb.
  destruct (decide (a = Py.NaN)) as [->|Na]; [by destruct b; intuition|].
  destruct (decide (b = Py.NaN)) as [->|Nb]; [by destruct a; intuition|].
  pose proof (compare_place a b Na Nb) as H.
  destruct (SFcompare a b) as [[]|]; [| | |done].
  - by split.
  - split; [done|]. intros (_ & _ & Hb). rewrite Hb in H. unfold before in H. lia.
  - split; [done|]. intros (_ & _ & Hb). rewrite Hb in H. unfold before in H. lia.
Qed.

Lemma gt_lt (a b : Py.float) : Py.gt a b = Py.lt b a.
Proof. reflexivity. Qed.

Lemma lt_asym (a b : Py.float) : Py.lt a b → Py.lt b a = false.
Proof.
  intros (_ & _ & H)%lt_place. apply not_true_is_false. intros H'.
  apply Is_true_true_2, lt_place in H' as (_ & _ & H'). unfold before in *. lia.
Qed.

Lemma lt_trans (a b c : Py.float) : Py.lt a b → Py.lt b c → Py.lt a c.
Proof.
  rewrite !lt_place. intros (Na & _ & H) (_ & Nc & H').
  split; [done|]. split; [done|]. unfold before in *. lia.
Qed.

Lemma lt_not_eq (a b : Py.float) : Py.lt a b → Py.eq a b = false ∧ Py.eq b a = false.
Proof.
  intros (_ & _ & H)%lt_place.
  split; apply not_true_is_false; intros H';
    apply Is_true_true_2, eq_place in H' as (_ & _ & H'); rewrite H' in H;
    unfold before in H; lia.
Qed.

Lemma eq_not_lt (a b : Py.float) : Py.eq a b → Py.lt a b = false ∧ Py.lt b a = false.
Proof.
  intros (_ & _ & H)%eq_place.
  split; apply not_true_is_false; intros H';
    apply Is_true_true_2, lt_place in H' as (_ & _ & H'); rewrite H in H';
    unfold before in H'; lia.
Qed.

(** Two floats of which neither is [NaN] compare: one is below the other,
    or they are equal. *)
Lemma comparable (a b : Py.float) :
  a ≠ Py.NaN → b ≠ Py.NaN → Py.lt a b ∨ Py.lt b a ∨ Py.eq a b.
Proof.
  intros Na Nb. rewrite !lt_place, eq_place.
  destruct (place a) as [[x y] z] eqn:Ea, (place b) as [[x' y'] z'] eqn:Eb.
  unfold before. cbn.
  destruct (decide (x = x' ∧ y = y' ∧ z = z')) as [(-> & -> & ->)|N];
    [by right; right|].
  assert (x < x' ∨ x' < x ∨ (x = x' ∧ (y < y' ∨ y' < y ∨ (y = y' ∧ (z < z' ∨ z' < z)))))
    by lia.
  intuition.
Qed.

(** The truth values of the two strict comparisons of a pair, once one of
    them is known to hold. *)
Lemma lt_values (a b : Py.float) :
  Py.lt a b → Py.lt a b = true ∧ Py.lt b a = false.
Proof. intros H. split; [by apply Is_true_true | by apply lt_asym]. Qed.

Ltac order_facts :=
  repeat match goal with
         | H : Is_true (Py.lt ?a ?b) |- _ =>
             let Ht := fresh "Ht" in
             let Hf := fresh "Hf" in
             destruct (lt_values a b H) as [Ht Hf]; clear H
         end.

(** *** The dictionary a branch of [three] fills *)

Lemma three_fill_lookup (t c1 c2 c3 : string) :
  three_fill t c1 c2 c3 ∅ !! "title" = Some t ∧
  three_fill t c1 c2 c3 ∅ !! "state1color" = Some c1 ∧
  three_fill t c1 c2 c3 ∅ !! "state2color" = Some c2 ∧
  three_fill t c1 c2 c3 ∅ !! "state3color" = Some c3 ∧
  three_fill t c1 c2 c3 ∅ !! "us_color" = Some black.
Proof. by repeat split. Qed.

(** Under a strict ordering exactly one condition of [three] holds, and
    [three_style] is what the branch of that condition writes. *)
Lemma three_style_strict (now_year : Z) (n1 n2 n3 : option string) (a b c : Py.float) :
  strict_order a b c →
  ∃ i t c1 c2 c3,
    three_conditions a b c = <[i := true]> (replicate 6 false) ∧
    (i < 6)%nat ∧
    three_narratives now_year n1 n2 n3 !! i = Some (t, (c1, c2, c3)) ∧
    three_style now_year n1 n2 n3 a b c = three_fill t c1 c2 c3 ∅ ∧
    c1 = rank_color a b c ∧ c2 = rank_color b a c ∧ c3 = rank_color c a b.
Proof.
  intros (Hab & Hbc & Hac).
  assert (Hcyc : ∀ x y z : Py.float, Py.lt x y → Py.lt y z → Py.lt z x → False).
  { intros x y z Hxy Hyz Hzx.
    pose proof (lt_trans _ _ _ Hxy Hyz) as Hxz.
    apply lt_asym in Hxz. destruct (Py.lt z x); done. }
  unfold three_conditions, three_style, rank_color. rewrite !gt_lt.
  destruct Hab as [Hab|Hab], Hbc as [Hbc|Hbc], Hac as [Hac|Hac];
    try (exfalso; by eauto using Hcyc).
  all: order_facts.
  all: repeat match goal with H : Py.lt _ _ = _ |- _ => rewrite !H; clear H end.
  all: cbn [andb].
  all: let fire i :=
         solve [ exists i; do 4 eexists; (split; [reflexivity|]);
                 (split; [lia|]); (split; [reflexivity|]); done ] in
       first [ fire 0%nat | fire 1%nat | fire 2%nat
             | fire 3%nat | fire 4%nat | fire 5%nat ].
Qed.

(** *** The builtin [min] and the aligner *)

Lemma foldl_min_le (l : list Z) (z v : Z) :
  foldl Z.min z l ≤ v ↔ z ≤ v ∨ Exists (λ o, o ≤ v) l.
Proof.
  revert z. induction l as [|w l IH]; intros z; simpl.
  - rewrite Exists_nil. tauto.
  - rewrite IH, Exists_cons.
    destruct (Z.min_spec z w) as [[? ->]|[? ->]];
      split; intros; destruct_or?; auto; left; lia.
Qed.

Lemma py_min_le (l : list Z) (z v : Z) :
  py_min l = Ok z → (z ≤ v ↔ Exists (λ o, o ≤ v) l).
Proof.
  destruct l as [|w l]; simpl; [done|]. intros [= <-].
  by rewrite foldl_min_le, Exists_cons.
Qed.

Lemma py_min_nonempty (l : list Z) : l ≠ [] → ∃ z, py_min l = Ok z.
Proof. destruct l; [done|]. simpl. eauto. Qed.

(** The threshold on a date component is the minimum of that component
    over the state frame. *)
Lemma column_min (field : Timestamp → Z) (l : list Row) :
  l ≠ [] →
  ∃ z, py_min (field <$> (Date <$> l)) = Ok z ∧
       ∀ r, z ≤ field (Date r) ↔ reaches field l r.
Proof.
  intros Hne.
  destruct (py_min_nonempty (field <$> (Date <$> l))) as [z Hz].
  { by destruct l. }
  exists z. split; [done|]. intros r.
  rewrite (py_min_le _ _ _ Hz). unfold reaches. by rewrite !Exists_fmap.
Qed.

(** A state frame on which the aligner does not fail has observations. *)
Lemma state_error_none (df : DataFrame) :
  state_error df = None ↔ observed df.
Proof. by destruct df as [|[|r l]]. Qed.

Lemma state_error_some (df : DataFrame) (e : exn) :
  state_error df = Some e →
  dt_year df ≫= py_min = Raise e.
Proof. destruct df as [|[|r l]]; by intros [= <-]. Qed.

Lemma state_minimums (df : DataFrame) :
  observed df →
  ∃ y m d,
    dt_year df ≫= py_min = Ok y ∧
    dt_month df ≫= py_min = Ok m ∧
    dt_day df ≫= py_min = Ok d ∧
    ∀ r, (y ≤ year (Date r) ↔ reaches year df r) ∧
         (m ≤ month (Date r) ↔ reaches month df r) ∧
         (d ≤ day (Date r) ↔ reaches day df r).
Proof.
  destruct df as [|l]; [done|]. intros Hobs.
  assert (l ≠ []) as Hne by (by destruct l).
  destruct (column_min year l Hne) as (y & Ey & Hy).
  destruct (column_min month l Hne) as (m & Em & Hm).
  destruct (column_min day l Hne) as (d & Ed & Hd).
  exists y, m, d. split_and!; [exact Ey | exact Em | exact Ed |].
  intros r. by split_and!.
Qed.

Lemma select_iff (P Q : Row → Prop) `{∀ r, Decision (P r)} `{∀ r, Decision (Q r)}
    (df : DataFrame) :
  (∀ r, P r ↔ Q r) → select P df = select Q df.
Proof. intros HPQ. destruct df as [|l]; [done|]. cbn. f_equal. by apply list_filter_iff. Qed.

Lemma rows_select (P : Row → Prop) `{∀ r, Decision (P r)} (df : DataFrame) :
  rows (select P df) = filter P (rows df).
Proof. by destruct df. Qed.

Lemma dated_select (P : Row → Prop) `{∀ r, Decision (P r)} (df : DataFrame) :
  dated (select P df) = dated df.
Proof. by destruct df. Qed.

Ltac minimums H :=
  let y := fresh "y" in let m := fresh "m" in let d := fresh "d" in
  let Ey := fresh "Ey" in let Em := fresh "Em" in let Ed := fresh "Ed" in
  let Hr := fresh "Hr" in
  destruct (state_minimums _ H) as (y & m & d & Ey & Em & Ed & Hr);
  rewrite ?Ey, ?Em, ?Ed; clear Ey Em Ed.

Ltac thresholds :=
  cbn [mbind result_bind mret result_ret]; f_equal; apply select_iff; intros r;
  unfold meets_start;
  repeat match goal with
         | Hr : ∀ r, (_ ↔ reaches year ?df r) ∧ _ |- _ =>
             destruct (Hr r) as (<- & <- & <-); clear Hr
         end;
  tauto.

(** The aligner in full: what it raises and what it keeps. *)
Lemma align_single_result (df df_us : DataFrame) :
  align_single df df_us =
    if dated df_us then
      match state_error df with
      | Some e => Raise e
      | None => Ok (select (meets_start df) df_us)
      end
    else Raise AttributeError.
Proof.
  unfold align_single. destruct df_us as [|us]; [done|].
  cbn [dt dated mbind result_bind].
  destruct (state_error df) as [e|] eqn:E1; [by rewrite (state_error_some _ _ E1)|].
  apply state_error_none in E1. minimums E1. thresholds.
Qed.

Lemma align_two_result (df df_2 df_us : DataFrame) :
  align_two df df_2 df_us =
    if dated df_us then
      match state_error df, state_error df_2 with
      | Some e, _ => Raise e
      | None, Some e => Raise e
      | None, None =>
          Ok (select (λ r, meets_start df r ∧ meets_start df_2 r) df_us)
      end
    else Raise AttributeError.
Proof.
  unfold align_two. destruct df_us as [|us]; [done|].
  cbn [dt dated mbind result_bind].
  destruct (state_error df) as [e|] eqn:E1; [by rewrite (state_error_some _ _ E1)|].
  apply state_error_none in E1. minimums E1.
  destruct (state_error df_2) as [e|] eqn:E2;
    [by cbn [mbind result_bind]; rewrite (state_error_some _ _ E2)|].
  apply state_error_none in E2. minimums E2. thresholds.
Qed.

Lemma align_three_result (df df_2 df_3 df_us : DataFrame) :
  align_three df df_2 df_3 df_us =
    if dated df_us then
      match state_error df, state_error df_2, state_error df_3 with
      | Some e, _, _ => Raise e
      | None, Some e, _ => Raise e
      | None, None, Some e => Raise e
      | None, None, None =>
          Ok (select (λ r, meets_start df r ∧ meets_start df_2 r ∧ meets_start df_3 r)
                     df_us)
      end
    else Raise AttributeError.
Proof.
  unfold align_three. destruct df_us as [|us]; [done|].
  cbn [dt dated mbind result_bind].
  destruct (state_error df) as [e|] eqn:E1; [by rewrite (state_error_some _ _ E1)|].
  apply state_error_none in E1. minimums E1.
  destruct (state_error df_2) as [e|] eqn:E2;
    [by cbn [mbind result_bind]; rewrite (state_error_some _ _ E2)|].
  apply state_error_none in E2. minimums E2.
  destruct (state_error df_3) as [e|] eqn:E3;
    [by cbn [mbind result_bind]; rewrite (state_error_some _ _ E3)|].
  apply state_error_none in E3. minimums E3. thresholds.
Qed.

Lemma align_single_ok (df df_us : DataFrame) :
  observed df → dated df_us →
  align_single df df_us = Ok (select (meets_start df) df_us).
Proof.
  intros H1%state_error_none Hus%Is_true_true_1.
  by rewrite align_single_result, Hus, H1.
Qed.

Lemma align_two_ok (df df_2 df_us : DataFrame) :
  observed df → observed df_2 → dated df_us →
  align_two df df_2 df_us =
    Ok (select (λ r, meets_start df r ∧ meets_start df_2 r) df_us).
Proof.
  intros H1%state_error_none H2%state_error_none Hus%Is_true_true_1.
  by rewrite align_two_result, Hus, H1, H2.
Qed.

Lemma align_three_ok (df df_2 df_3 df_us : DataFrame) :
  observed df → observed df_2 → observed df_3 → dated df_us →
  align_three df df_2 df_3 df_us =
    Ok (select (λ r, meets_start df r ∧ meets_start df_2 r ∧ meets_start df_3 r) df_us).
Proof.
  intros H1%state_error_none H2%state_error_none H3%state_error_none Hus%Is_true_true_1.
  by rewrite align_three_result, Hus, H1, H2, H3.
Qed.

(** The mean of a frame with dates is the trailing mean of its rows. *)
Lemma mean_5yrs_dated `{!np.Mean} (now_year : Z) (df : DataFrame) :
  dated df → mean_5yrs now_year df = Ok (trailing_mean now_year df).
Proof.
  destruct df as [|l]; [done|]. intros _. reflexivity.
Qed.

(** *** Running a handler *)

Section run.

Context `{numpy : !np.Mean} (now_year : Z) (fred : string → option DataFrame).

Lemma read_csv_bind {A : Type} (url : string) (df : DataFrame)
    (k : DataFrame → io A) (log : list string) :
  fred url = Some df →
  (read_csv fred url ≫= k) log = k df (log ++ [url]).
Proof. intros H. unfold mbind, io_bind, read_csv. by rewrite H. Qed.

Lemma read_csv_fail {A : Type} (url : string) (k : DataFrame → io A)
    (log : list string) :
  fred url = None →
  (read_csv fred url ≫= k) log = (Raise URLError, log ++ [url]).
Proof. intros H. unfold mbind, io_bind, read_csv. by rewrite H. Qed.

Lemma lift_bind {A B : Type} (r : result A) (a : A) (k : A → io B)
    (log : list string) :
  r = Ok a → (lift r ≫= k) log = k a log.
Proof. by intros ->. Qed.

Lemma lift_bind_raise {A B : Type} (r : result A) (e : exn) (k : A → io B)
    (log : list string) :
  r = Raise e → (lift r ≫= k) log = (Raise e, log).
Proof. by intros ->. Qed.

Lemma observed_dated (df : DataFrame) : observed df → dated df.
Proof. by destruct df as [|[|r l]]. Qed.

(** What is known of the frames once the aligner has returned. *)
Lemma align_single_inv (df df_us us' : DataFrame) :
  align_single df df_us = Ok us' →
  observed df ∧ dated df_us ∧ dated us' ∧ us' = select (meets_start df) df_us.
Proof.
  rewrite align_single_result. destruct (dated df_us) eqn:D; [|done].
  destruct (state_error df) eqn:E1; [done|]. intros [= <-].
  apply state_error_none in E1. rewrite dated_select, D. by split_and!.
Qed.

Lemma align_two_inv (df df_2 df_us us' : DataFrame) :
  align_two df df_2 df_us = Ok us' →
  observed df ∧ observed df_2 ∧ dated df_us ∧ dated us' ∧
  us' = select (λ r, meets_start df r ∧ meets_start df_2 r) df_us.
Proof.
  rewrite align_two_result. destruct (dated df_us) eqn:D; [|done].
  destruct (state_error df) eqn:E1; [done|].
  destruct (state_error df_2) eqn:E2; [done|]. intros [= <-].
  apply state_error_none in E1, E2. rewrite dated_select, D. by split_and!.
Qed.

Lemma align_three_inv (df df_2 df_3 df_us us' : DataFrame) :
  align_three df df_2 df_3 df_us = Ok us' →
  observed df ∧ observed df_2 ∧ observed df_3 ∧ dated df_us ∧ dated us' ∧
  us' = select (λ r, meets_start df r ∧ meets_start df_2 r ∧ meets_start df_3 r) df_us.
Proof.
  rewrite align_three_result. destruct (dated df_us) eqn:D; [|done].
  destruct (state_error df) eqn:E1; [done|].
  destruct (state_error df_2) eqn:E2; [done|].
  destruct (state_error df_3) eqn:E3; [done|]. intros [= <-].
  apply state_error_none in E1, E2, E3. rewrite dated_select, D. by split_and!.
Qed.

Ltac means :=
  repeat match goal with
         | H : Is_true (observed ?df) |- context [mean_5yrs now_year ?df] =>
             rewrite (lift_bind _ _ _ _
                        (mean_5yrs_dated now_year df (observed_dated _ H)))
         | H : Is_true (dated ?df) |- context [mean_5yrs now_year ?df] =>
             rewrite (lift_bind _ _ _ _ (mean_5yrs_dated now_year df H))
         end.

(** [single], [two] and [three] step by step: each retrieval in turn, then
    the alignment, then the means and the chart. *)
Lemma single_cases (statecode : string) (view : option string) (log : list string) :
  single now_year fred statecode view log =
    match fred (state_url (Some statecode)) with
    | None => (Raise URLError, log ++ [state_url (Some statecode)])
    | Some df =>
        match fred us_url with
        | None => (Raise URLError, log ++ [state_url (Some statecode); us_url])
        | Some df_us =>
            (match align_single df df_us with
             | Raise e => Raise e
             | Ok us' =>
                 Ok (respond view
                       (single_figure now_year (statecodes !! statecode) df us'))
             end, log ++ [state_url (Some statecode); us_url])
        end
    end.
Proof.
  unfold single. cbv zeta.
  destruct (fred (state_url (Some statecode))) as [df|] eqn:E1;
    [rewrite (read_csv_bind _ _ _ _ E1) | by rewrite (read_csv_fail _ _ _ E1)].
  destruct (fred us_url) as [df_us|] eqn:E2;
    [rewrite (read_csv_bind _ _ _ _ E2)
    | by rewrite (read_csv_fail _ _ _ E2), <- app_assoc].
  rewrite <- !app_assoc.
  destruct (align_single df df_us) as [us'|e] eqn:Ea;
    [rewrite (lift_bind (Ok us') us' _ _ eq_refl)
    | by rewrite (lift_bind_raise (Raise e) e _ _ eq_refl)].
  apply align_single_inv in Ea as (O1 & _ & Dus & _).
  means. reflexivity.
Qed.

Lemma two_cases (statecode : string) (statecode2 view : option string)
    (log : list string) :
  two now_year fred statecode statecode2 view log =
    match fred (state_url (Some statecode)) with
    | None => (Raise URLError, log ++ [state_url (Some statecode)])
    | Some df =>
        match fred (state_url statecode2) with
        | None => (Raise URLError,
                   log ++ [state_url (Some statecode); state_url statecode2])
        | Some df_2 =>
            match fred us_url with
            | None => (Raise URLError,
                       log ++ [state_url (Some statecode); state_url statecode2;
                               us_url])
            | Some df_us =>
                (match align_two df df_2 df_us with
                 | Raise e => Raise e
                 | Ok us' =>
                     Ok (respond view
                           (two_figure now_year (statecodes !! statecode)
                              (statecodes_get statecode2) df df_2 us'))
                 end,
                 log ++ [state_url (Some statecode); state_url statecode2; us_url])
            end
        end
    end.
Proof.
  unfold two. cbv zeta.
  destruct (fred (state_url (Some statecode))) as [df|] eqn:E1;
    [rewrite (read_csv_bind _ _ _ _ E1) | by rewrite (read_csv_fail _ _ _ E1)].
  destruct (fred (state_url statecode2)) as [df_2|] eqn:E2;
    [rewrite (read_csv_bind _ _ _ _ E2)
    | by rewrite (read_csv_fail _ _ _ E2), <- app_assoc].
  destruct (fred us_url) as [df_us|] eqn:E3;
    [rewrite (read_csv_bind _ _ _ _ E3)
    | by rewrite (read_csv_fail _ _ _ E3), <- !app_assoc].
  rewrite <- !app_assoc.
  destruct (align_two df df_2 df_us) as [us'|e] eqn:Ea;
    [rewrite (lift_bind (Ok us') us' _ _ eq_refl)
    | by rewrite (lift_bind_raise (Raise e) e _ _ eq_refl)].
  apply align_two_inv in Ea as (O1 & O2 & _ & Dus & _).
  means. reflexivity.
Qed.

Lemma three_cases (statecode : string) (statecode2 statecode3 view : option string)
    (log : list string) :
  three now_year fred statecode statecode2 statecode3 view log =
    match fred (state_url (Some statecode)) with
    | None => (Raise URLError, log ++ [state_url (Some statecode)])
    | Some df =>
        match fred (state_url statecode2) with
        | None => (Raise URLError,
                   log ++ [state_url (Some statecode); state_url statecode2])
        | Some df_2 =>
            match fred (state_url statecode3) with
            | None => (Raise URLError,
                       log ++ [state_url (Some statecode); state_url statecode2;
                               state_url statecode3])
            | Some df_3 =>
                match fred us_url with
                | None => (Raise URLError,
                           log ++ [state_url (Some statecode); state_url statecode2;
                                   state_url statecode3; us_url])
                | Some df_us =>
                    (match align_three df df_2 df_3 df_us with
                     | Raise e => Raise e
                     | Ok us' =>
                         Ok (respond view
                               (three_figure now_year (statecodes !! statecode)
                                  (statecodes_get statecode2)
                                  (statecodes_get statecode3) df df_2 df_3 us'))
                     end,
                     log ++ [state_url (Some statecode); state_url statecode2;
                             state_url statecode3; us_url])
                end
            end
        end
    end.
Proof.
  unfold three. cbv zeta.
  destruct (fred (state_url (Some statecode))) as [df|] eqn:E1;
    [rewrite (read_csv_bind _ _ _ _ E1) | by rewrite (read_csv_fail _ _ _ E1)].
  destruct (fred (state_url statecode2)) as [df_2|] eqn:E2;
    [rewrite (read_csv_bind _ _ _ _ E2)
    | by rewrite (read_csv_fail _ _ _ E2), <- app_assoc].
  destruct (fred (state_url statecode3)) as [df_3|] eqn:E3;
    [rewrite (read_csv_bind _ _ _ _ E3)
    | by rewrite (read_csv_fail _ _ _ E3), <- !app_assoc].
  destruct (fred us_url) as [df_us|] eqn:E4;
    [rewrite (read_csv_bind _ _ _ _ E4)
    | by rewrite (read_csv_fail _ _ _ E4), <- !app_assoc].
  rewrite <- !app_assoc.
  destruct (align_three df df_2 df_3 df_us) as [us'|e] eqn:Ea;
    [rewrite (lift_bind (Ok us') us' _ _ eq_refl)
    | by rewrite (lift_bind_raise (Raise e) e _ _ eq_refl)].
  apply align_three_inv in Ea as (O1 & O2 & O3 & _ & Dus & _).
  means. reflexivity.
Qed.

End run.

(** *** The comparator and the chart *)

Section claims.

Context `{numpy : !np.Mean} (now_year : Z) (fred : string → option DataFrame).

(** What [three] returns once the four frames are served, the state
    frames have observations and the national frame has dates. *)
Lemma three_run (statecode : string) (statecode2 statecode3 view : option string)
    (df df_2 df_3 df_us : DataFrame) (log : list string) :
  fred (state_url (Some statecode)) = Some df →
  fred (state_url statecode2) = Some df_2 →
  fred (state_url statecode3) = Some df_3 →
  fred us_url = Some df_us →
  observed df → observed df_2 → observed df_3 → dated df_us →
  ∃ fig,
    three now_year fred statecode statecode2 statecode3 view log
      = (Ok (respond view fig),
         log ++ [state_url (Some statecode); state_url statecode2;
                 state_url statecode3; us_url]) ∧
    let style := three_style now_year (statecodes !! statecode)
                   (statecodes_get statecode2) (statecodes_get statecode3)
                   (trailing_mean now_year df) (trailing_mean now_year df_2)
                   (trailing_mean now_year df_3) in
    title_of fig = style !! "title" ∧
    legend fig = [(statecodes !! statecode, style !! "state1color");
                  (Some "United States", style !! "us_color");
                  (statecodes_get statecode2, style !! "state2color");
                  (statecodes_get statecode3, style !! "state3color")] ∧
    dashes fig = [None; Some "dash"; None; None].
Proof.
  intros Hdf Hdf2 Hdf3 Hus O1 O2 O3 Dus.
  rewrite three_cases, Hdf, Hdf2, Hdf3, Hus, align_three_ok by assumption.
  eexists. split; [reflexivity|]. by split_and!.
Qed.


(** *** Pairwise comparisons *)

Lemma two_style_higher (n1 n2 : option string) (a b : Py.float) :
  Py.lt b a →
  let style := two_style now_year n1 n2 a b in
  style !! "title" = Some (Py.fmt n1 +:+ " Averaged Higher Unemployment than "
                           +:+ Py.fmt n2 +:+ since now_year) ∧
  style !! "state1color" = Some red ∧ style !! "state2color" = Some green ∧
  style !! "us_color" = Some black.
Proof.
  intros H. unfold two_style. rewrite gt_lt, (Is_true_true_1 _ H). by split_and!.
Qed.

Lemma two_style_lower (n1 n2 : option string) (a b : Py.float) :
  Py.lt a b →
  let style := two_style now_year n1 n2 a b in
  style !! "title" = Some (Py.fmt n1 +:+ " Averaged Lower Unemployment than "
                           +:+ Py.fmt n2 +:+ since now_year) ∧
  style !! "state1color" = Some green ∧ style !! "state2color" = Some red ∧
  style !! "us_color" = Some black.
Proof.
  intros H. unfold two_style.
  rewrite gt_lt, (lt_asym _ _ H), (Is_true_true_1 _ H). by split_and!.
Qed.

Lemma two_style_same (n1 n2 : option string) (a b : Py.float) :
  Py.eq a b →
  let style := two_style now_year n1 n2 a b in
  style !! "title" = Some (Py.fmt n1 +:+ " and " +:+ Py.fmt n2 +:+
                           " Averaged the Same Unemployment" +:+ since now_year) ∧
  style !! "state1color" = Some green ∧ style !! "state2color" = Some darkcyan ∧
  style !! "us_color" = Some black.
Proof.
  intros H. unfold two_style. destruct (eq_not_lt _ _ H) as [Hab Hba].
  rewrite gt_lt, Hab, Hba, (Is_true_true_1 _ H). by split_and!.
Qed.

Lemma single_style_higher (n1 : option string) (a b : Py.float) :
  Py.lt b a →
  let style := single_style now_year n1 a b in
  style !! "title" = Some (Py.fmt n1 +:+
    " Unemployment Rates Averaged Higher than the United States" +:+ since now_year) ∧
  style !! "state1color" = Some red ∧ style !! "us_color" = Some green.
Proof.
  intros H. unfold single_style. rewrite gt_lt, (Is_true_true_1 _ H). by split_and!.
Qed.

Lemma single_style_lower (n1 : option string) (a b : Py.float) :
  Py.lt a b →
  let style := single_style now_year n1 a b in
  style !! "title" = Some (Py.fmt n1 +:+
    " Unemployment Rates Averaged Lower than the United States" +:+ since now_year) ∧
  style !! "state1color" = Some green ∧ style !! "us_color" = Some red.
Proof.
  intros H. unfold single_style.
  rewrite gt_lt, (lt_asym _ _ H), (Is_true_true_1 _ H). by split_and!.
Qed.

Lemma single_style_same (n1 : option string) (a b : Py.float) :
  Py.eq a b →
  let style := single_style now_year n1 a b in
  style !! "title" = Some (Py.fmt n1 +:+
    " Averaged the Same Unemployment as the United States" +:+ since now_year) ∧
  style !! "state1color" = Some green ∧ style !! "us_color" = Some darkcyan.
Proof.
  intros H. unfold single_style. destruct (eq_not_lt _ _ H) as [Hab Hba].
  rewrite gt_lt, Hab, Hba, (Is_true_true_1 _ H). by split_and!.
Qed.

(** What [two] returns once the three frames are served, the state frames
    have observations and the national frame has dates. *)
Lemma two_run (statecode : string) (statecode2 view : option string)
    (df df_2 df_us : DataFrame) (log : list string) :
  fred (state_url (Some statecode)) = Some df →
  fred (state_url statecode2) = Some df_2 →
  fred us_url = Some df_us →
  observed df → observed df_2 → dated df_us →
  ∃ fig,
    two now_year fred statecode statecode2 view log
      = (Ok (respond view fig),
         log ++ [state_url (Some statecode); state_url statecode2; us_url]) ∧
    let style := two_style now_year (statecodes !! statecode)
                   (statecodes_get statecode2)
                   (trailing_mean now_year df) (trailing_mean now_year df_2) in
    title_of fig = style !! "title" ∧
    legend fig = [(statecodes !! statecode, style !! "state1color");
                  (statecodes_get statecode2, style !! "state2color");
                  (Some "United States", style !! "us_color")] ∧
    dashes fig = [None; None; Some "dash"].
Proof.
  intros Hdf Hdf2 Hus O1 O2 Dus.
  rewrite two_cases, Hdf, Hdf2, Hus, align_two_ok by assumption.
  eexists. split; [reflexivity|]. by split_and!.
Qed.

(** What [single] returns once the two frames are served, the state frame
    has observations and the national frame has dates; the national mean
    is taken on the aligned national frame. *)
Lemma single_run (statecode : string) (view : option string)
    (df df_us : DataFrame) (log : list string) :
  fred (state_url (Some statecode)) = Some df →
  fred us_url = Some df_us →
  observed df → dated df_us →
  ∃ fig,
    single now_year fred statecode view log
      = (Ok (respond view fig), log ++ [state_url (Some statecode); us_url]) ∧
    let style := single_style now_year (statecodes !! statecode)
                   (trailing_mean now_year df)
                   (trailing_mean now_year (select (meets_start df) df_us)) in
    title_of fig = style !! "title" ∧
    legend fig = [(statecodes !! statecode, style !! "state1color");
                  (Some "United States", style !! "us_color")] ∧
    dashes fig = [None; Some "dash"].
Proof.
  intros Hdf Hus O1 Dus.
  rewrite single_cases, Hdf, Hus, align_single_ok by assumption.
  eexists. split; [reflexivity|]. by split_and!.
Qed.

Lemma append_cancel (s a b : string) : s +:+ a = s +:+ b → a = b.
Proof. induction s as [|ch s IH]; simpl; [done|]. intros [= H]. auto. Qed.

(** Two titles with a common prefix differ when what follows differs at
    some position. *)
Lemma titles_differ (n : nat) (s a b : string) :
  String.get n a ≠ String.get n b → Some (s +:+ a) ≠ Some (s +:+ b).
Proof.
  intros Hn E. apply Hn. f_equal. apply (append_cancel s). congruence.
Qed.

(** C5. The comparison of two states is antisymmetric.  When the
    trailing mean of A exceeds that of B (the doubles that [np.mean]
    returns, compared with [>]), the request (A, B) gets the 'A higher'
    title and the swapped request (B, A) gets the 'B lower' title; in
    both charts A is red '#CC0000' and B is green '#4BB543' (and the
    national series black, dashed).  Both state series have an
    observation and the national series has dates. *)
Theorem two_antisymmetric (A B : string) (view : option string)
    (dfA dfB df_us : DataFrame) (log : list string) :
  fred (state_url (Some A)) = Some dfA →
  fred (state_url (Some B)) = Some dfB →
  fred us_url = Some df_us →
  observed dfA → observed dfB → dated df_us →
  Py.gt (trailing_mean now_year dfA) (trailing_mean now_year dfB) →
  let nameA := statecodes !! A in
  let nameB := statecodes !! B in
  ∃ figAB figBA,
    two now_year fred A (Some B) view log
      = (Ok (respond view figAB),
         log ++ [state_url (Some A); state_url (Some B); us_url]) ∧
    two now_year fred B (Some A) view log
      = (Ok (respond view figBA),
         log ++ [state_url (Some B); state_url (Some A); us_url]) ∧
    title_of figAB = Some (Py.fmt nameA +:+ " Averaged Higher Unemployment than "
                           +:+ Py.fmt nameB +:+ since now_year) ∧
    title_of figBA = Some (Py.fmt nameB +:+ " Averaged Lower Unemployment than "
                           +:+ Py.fmt nameA +:+ since now_year) ∧
    legend figAB = [(nameA, Some red); (nameB, Some green);
                    (Some "United States", Some black)] ∧
    legend figBA = [(nameB, Some green); (nameA, Some red);
                    (Some "United States", Some black)] ∧
    dashes figAB = [None; None; Some "dash"] ∧
    dashes figBA = [None; None; Some "dash"].
Proof.
  intros HA HB Hus OA OB Dus Hgt nameA nameB. rewrite gt_lt in Hgt.
  destruct (two_run A (Some B) view dfA dfB df_us log HA HB Hus OA OB Dus)
    as (figAB & RAB & TAB & LAB & DAB).
  destruct (two_run B (Some A) view dfB dfA df_us log HB HA Hus OB OA Dus)
    as (figBA & RBA & TBA & LBA & DBA).
  cbn [statecodes_get mbind option_bind] in *. fold nameA nameB in TAB, LAB, TBA, LBA.
  destruct (two_style_higher nameA nameB _ _ Hgt) as (T1 & C1 & C2 & C3).
  destruct (two_style_lower nameB nameA _ _ Hgt) as (T1' & C1' & C2' & C3').
  exists figAB, figBA.
  rewrite TAB, TBA, LAB, LBA, T1, C1, C2, C3, T1', C1', C2', C3'.
  split_and!;
    [exact RAB | exact RBA | reflexivity | reflexivity
    | reflexivity | reflexivity | exact DAB | exact DBA].
Qed.

(** C6 (as the code has it). A tie in a pairwise comparison selects the
    'same' narrative.  For two states with equal trailing means the
    title is the '... and ... Averaged the Same Unemployment' one, with
    the second state in teal 'darkcyan' (the first state green, the
    national series black); for one state whose trailing mean equals that
    of the national series as the aligner has restricted it, the title
    is the '... Averaged the Same Unemployment as the United States' one,
    with the national series in teal (the state green).  In neither case
    is the title the 'higher' or the 'lower' one, and no series is red.
    The means are the doubles that [np.mean] returns and the tie is
    [==] on them. *)
Theorem tie_selects_same (A B : string) (view : option string)
    (dfA dfB df_us : DataFrame) (log : list string) :
  fred (state_url (Some A)) = Some dfA →
  fred (state_url (Some B)) = Some dfB →
  fred us_url = Some df_us →
  observed dfA → observed dfB → dated df_us →
  let nameA := statecodes !! A in
  let nameB := statecodes !! B in
  (Py.eq (trailing_mean now_year dfA) (trailing_mean now_year dfB) →
   ∃ fig,
     two now_year fred A (Some B) view log
       = (Ok (respond view fig),
          log ++ [state_url (Some A); state_url (Some B); us_url]) ∧
     title_of fig = Some (Py.fmt nameA +:+ " and " +:+ Py.fmt nameB +:+
                          " Averaged the Same Unemployment" +:+ since now_year) ∧
     title_of fig ≠ Some (Py.fmt nameA +:+ " Averaged Higher Unemployment than "
                          +:+ Py.fmt nameB +:+ since now_year) ∧
     title_of fig ≠ Some (Py.fmt nameA +:+ " Averaged Lower Unemployment than "
                          +:+ Py.fmt nameB +:+ since now_year) ∧
     legend fig = [(nameA, Some green); (nameB, Some darkcyan);
                   (Some "United States", Some black)]) ∧
  (Py.eq (trailing_mean now_year dfA)
         (trailing_mean now_year (select (meets_start dfA) df_us)) →
   ∃ fig,
     single now_year fred A view log
       = (Ok (respond view fig), log ++ [state_url (Some A); us_url]) ∧
     title_of fig = Some (Py.fmt nameA +:+
       " Averaged the Same Unemployment as the United States" +:+ since now_year) ∧
     title_of fig ≠ Some (Py.fmt nameA +:+
       " Unemployment Rates Averaged Higher than the United States" +:+ since now_year) ∧
     title_of fig ≠ Some (Py.fmt nameA +:+
       " Unemployment Rates Averaged Lower than the United States" +:+ since now_year) ∧
     legend fig = [(nameA, Some green); (Some "United States", Some darkcyan)]).
Proof.
  intros HA HB Hus OA OB Dus nameA nameB. split; intros Heq.
  - destruct (two_run A (Some B) view dfA dfB df_us log HA HB Hus OA OB Dus)
      as (fig & R & T & L & D).
    cbn [statecodes_get mbind option_bind] in *. fold nameA nameB in T, L.
    destruct (two_style_same nameA nameB _ _ Heq) as (T1 & C1 & C2 & C3).
    exists fig. rewrite T, L, T1, C1, C2, C3.
    split_and!;
      [ exact R | reflexivity
      | apply (titles_differ 1); lazy; discriminate
      | apply (titles_differ 1); lazy; discriminate
      | reflexivity ].
  - destruct (single_run A view dfA df_us log HA Hus OA Dus) as (fig & R & T & L & D).
    fold nameA in T, L.
    destruct (single_style_same nameA _ _ Heq) as (T1 & C1 & C2).
    exists fig. rewrite T, L, T1, C1, C2.
    split_and!;
      [ exact R | reflexivity
      | apply (titles_differ 1); lazy; discriminate
      | apply (titles_differ 1); lazy; discriminate
      | reflexivity ].
Qed.

(** *** Ties among three states *)

Lemma chain_false (x y z : Py.float) :
  tied x y z ∨ tied z y x → Py.gt x y && Py.gt y z = false.
Proof.
  intros Ht. rewrite !gt_lt.
  destruct (Py.lt y x) eqn:Hyx; [|done].
  destruct (Py.lt z y) eqn:Hzy; [|done].
  apply Is_true_true_2 in Hyx, Hzy.
  pose proof (lt_trans _ _ _ Hzy Hyx) as Hzx.
  apply Is_true_true_1 in Hyx, Hzy, Hzx.
  unfold tied in Ht.
  destruct Ht as [[H|[H|H]]|[H|[H|H]]]; apply eq_not_lt in H as [H1 H2]; congruence.
Qed.

Lemma three_style_tied (n1 n2 n3 : option string) (a b c : Py.float) :
  tied a b c →
  three_conditions a b c = replicate 6 false ∧
  three_style now_year n1 n2 n3 a b c = ∅.
Proof.
  intros Ht. unfold three_conditions, three_style.
  rewrite (chain_false a b c), (chain_false a c b), (chain_false b a c),
          (chain_false b c a), (chain_false c b a), (chain_false c a b);
    first done; unfold tied in *; tauto.
Qed.

(** C7. Three states of which some two have equal trailing means (the
    doubles that [np.mean] returns, compared with [==]): none of the six
    conditions of [three] holds, the [style] dictionary stays empty, and
    the chart is returned with no title and no line color on any series;
    nothing is raised.  Every state series has an observation and the
    national series has dates. *)
Theorem three_tie_unset
    (statecode : string) (statecode2 statecode3 view : option string)
    (df df_2 df_3 df_us : DataFrame) (log : list string) :
  fred (state_url (Some statecode)) = Some df →
  fred (state_url statecode2) = Some df_2 →
  fred (state_url statecode3) = Some df_3 →
  fred us_url = Some df_us →
  observed df → observed df_2 → observed df_3 → dated df_us →
  tied (trailing_mean now_year df) (trailing_mean now_year df_2)
       (trailing_mean now_year df_3) →
  let statename := statecodes !! statecode in
  let state2 := statecodes_get statecode2 in
  let state3 := statecodes_get statecode3 in
  three_conditions (trailing_mean now_year df) (trailing_mean now_year df_2)
                   (trailing_mean now_year df_3) = replicate 6 false ∧
  three_style now_year statename state2 state3 (trailing_mean now_year df)
              (trailing_mean now_year df_2) (trailing_mean now_year df_3) = ∅ ∧
  ∃ fig,
    three now_year fred statecode statecode2 statecode3 view log
      = (Ok (respond view fig),
         log ++ [state_url (Some statecode); state_url statecode2;
                 state_url statecode3; us_url]) ∧
    title_of fig = None ∧
    legend fig = [(statename, None); (Some "United States", None);
                  (state2, None); (state3, None)] ∧
    dashes fig = [None; Some "dash"; None; None].
Proof.
  intros Hdf Hdf2 Hdf3 Hus O1 O2 O3 Dus Ht statename state2 state3.
  destruct (three_style_tied statename state2 state3 _ _ _ Ht) as [Hc Hs].
  split; [exact Hc|]. split; [exact Hs|].
  destruct (three_run statecode statecode2 statecode3 view df df_2 df_3 df_us log
              Hdf Hdf2 Hdf3 Hus O1 O2 O3 Dus) as (fig & R & T & L & D).
  fold statename state2 state3 in T, L. rewrite Hs in T, L.
  exists fig. split_and!; [exact R | exact T | exact L | exact D].
Qed.

(** *** The normaliser *)

Lemma upper_truthy (s : string) : Py.truthy_str (Py.upper s) = Py.truthy_str s.
Proof. by destruct s. Qed.

Lemma upper_slot_truthy (o : option string) : Py.truthy (upper_slot o) = Py.truthy o.
Proof.
  unfold upper_slot. destruct (Py.truthy o) eqn:E; [|done].
  destruct o as [s|]; [|done]. simpl in *. by rewrite upper_truthy.
Qed.

(** A registered code is not the empty string. *)
Lemma registered_truthy (s : string) : in_statecodes s → Py.truthy_str s = true.
Proof. destruct s; [|done]. by vm_compute. Qed.

Lemma eqb_Some (a b : string) : Py.eqb (Some a) (Some b) = bool_decide (a = b).
Proof. unfold Py.eqb. apply bool_decide_ext. split; congruence. Qed.

Lemma eqb_refl (a : option string) : Py.eqb a a = true.
Proof. by apply bool_decide_eq_true_2. Qed.

Lemma eqb_Some_None (a : string) : Py.eqb (Some a) None = false.
Proof. by apply bool_decide_eq_false_2. Qed.

Lemma eqb_None_Some (a : string) : Py.eqb None (Some a) = false.
Proof. by apply bool_decide_eq_false_2. Qed.

(** Once the three validations pass, the endpoint deduplicates and
    dispatches. *)
Lemma endpoint_valid (statecode : string) (statecode2 statecode3 view : option string) :
  in_statecodes (Py.upper statecode) →
  (Py.truthy statecode2 → opt_in_statecodes (upper_slot statecode2)) →
  (Py.truthy statecode3 → opt_in_statecodes (upper_slot statecode3)) →
  unemployment_visualization now_year fred statecode statecode2 statecode3 view =
    let '(s2, s3) := dedup (Py.upper statecode) (upper_slot statecode2)
                           (upper_slot statecode3) in
    dispatch now_year fred (Py.upper statecode) s2 s3 view.
Proof.
  intros H1 H2 H3. unfold unemployment_visualization. cbv zeta.
  fold (upper_slot statecode2) (upper_slot statecode3).
  rewrite (Is_true_true_1 _ H1). cbn [negb].
  rewrite !upper_slot_truthy.
  destruct (Py.truthy statecode2);
    [rewrite (Is_true_true_1 _ (H2 I)); cbn [negb andb] | rewrite andb_false_r];
    (destruct (Py.truthy statecode3);
     [rewrite (Is_true_true_1 _ (H3 I)); cbn [negb andb] | rewrite andb_false_r]);
    reflexivity.
Qed.

(** On three registered codes the four deduplication statements and the
    dispatch do what the policy of the specification says. *)
Lemma dedup_dispatch (u1 u2 u3 : string) (view : option string) :
  in_statecodes u1 → in_statecodes u2 → in_statecodes u3 →
  (let '(s2, s3) := dedup u1 (Some u2) (Some u3) in
   dispatch now_year fred u1 s2 s3 view)
  = builder now_year fred (spec_dedup u1 u2 u3) view.
Proof.
  intros T1%registered_truthy T2%registered_truthy T3%registered_truthy.
  assert (Hrefl : ∀ x : string, bool_decide (x = x) = true)
    by (intros; by apply bool_decide_eq_true_2).
  unfold dedup, spec_dedup.
  destruct (decide (u1 = u2)) as [<-|N12];
    destruct (decide (u1 = u3)) as [<-|N13];
    try (destruct (decide (u2 = u3)) as [<-|N23]); try done.
  all: repeat match goal with
              | H : ?x ≠ ?y |- _ =>
                  assert (bool_decide (x = y) = false)
                    by (by apply bool_decide_eq_false_2);
                  assert (bool_decide (y = x) = false)
                    by (apply bool_decide_eq_false_2; congruence);
                  clear H
              end.
  all: repeat first
         [ rewrite bool_decide_and | rewrite eqb_Some | rewrite eqb_refl
         | rewrite eqb_Some_None | rewrite eqb_None_Some | rewrite Hrefl
         | match goal with H : bool_decide _ = _ |- _ => rewrite H end
         | rewrite T1 | rewrite T2 | rewrite T3
         | progress cbv beta iota zeta
         | progress cbn [andb negb Py.truthy] ].
  all: unfold dispatch, builder; cbn [Py.truthy]; rewrite ?T1, ?T2, ?T3;
    cbn [andb negb].
  all: destruct (wants_png view); reflexivity.
Qed.

Lemma spec_dedup_distinct (u1 u2 u3 : string) :
  NoDup (spec_dedup u1 u2 u3) ∧ (1 ≤ length (spec_dedup u1 u2 u3) ≤ 3)%nat.
Proof.
  unfold spec_dedup.
  destruct (decide (u1 = u2 ∧ u2 = u3)) as [?|N];
    [by rewrite bool_decide_eq_true_2; [split; [apply NoDup_singleton|simpl; lia]|]|].
  rewrite (bool_decide_eq_false_2 _ N).
  destruct (decide (u1 = u3)) as [?|N13];
    [rewrite bool_decide_eq_true_2 by done | rewrite bool_decide_eq_false_2 by done].
  { split; [|simpl; lia]. apply NoDup_cons. split; [|apply NoDup_singleton].
    rewrite list_elem_of_singleton. intros ->. by apply N. }
  destruct (decide (u2 = u3)) as [?|N23];
    [rewrite bool_decide_eq_true_2 by done | rewrite bool_decide_eq_false_2 by done].
  { split; [|simpl; lia]. apply NoDup_cons. split; [|apply NoDup_singleton].
    rewrite list_elem_of_singleton. congruence. }
  destruct (decide (u1 = u2)) as [?|N12];
    [rewrite bool_decide_eq_true_2 by done | rewrite bool_decide_eq_false_2 by done].
  { destruct (Py.truthy_str u3); (split; [|simpl; lia]); [|apply NoDup_singleton].
    apply NoDup_cons. split; [|apply NoDup_singleton].
    by rewrite list_elem_of_singleton. }
  split; [|simpl; lia].
  repeat (apply NoDup_cons; split;
          [rewrite ?elem_of_cons, elem_of_nil; intuition congruence|]).
  apply NoDup_nil_2.
Qed.

(** C2. On three registered codes (after upper-casing) the normaliser
    follows the precedence of the policy -- all three equal: slots 2
    and 3 dropped; else code1 = code3: slot 3 dropped; else
    code2 = code3: slot 3 dropped; else code1 = code2: slot 3 promoted
    into slot 2 -- and hands the request of 1, 2 or 3 pairwise different
    codes to the builder of that arity.  ("CA","ca","CA") is the
    one-state request CA, ("CA","NY","CA") is the two-state request
    (CA, NY) with slot 3 dropped, and ("CA","CA","NY") is the two-state
    request (CA, NY) with NY promoted from slot 3 into slot 2. *)
Theorem dedup_precedence (code1 code2 code3 : string) (view : option string) :
  in_statecodes (Py.upper code1) →
  in_statecodes (Py.upper code2) →
  in_statecodes (Py.upper code3) →
  let request := spec_dedup (Py.upper code1) (Py.upper code2) (Py.upper code3) in
  let png := if wants_png view then Some "True" else None in
  unemployment_visualization now_year fred code1 (Some code2) (Some code3) view
    = builder now_year fred request view ∧
  NoDup request ∧ (1 ≤ length request ≤ 3)%nat ∧
  unemployment_visualization now_year fred "CA" (Some "ca") (Some "CA") view
    = single now_year fred "CA" png ∧
  unemployment_visualization now_year fred "CA" (Some "NY") (Some "CA") view
    = two now_year fred "CA" (Some "NY") png ∧
  unemployment_visualization now_year fred "CA" (Some "CA") (Some "NY") view
    = two now_year fred "CA" (Some "NY") png ∧
  dedup "CA" (Some "CA") (Some "CA") = (None, None) ∧
  dedup "CA" (Some "NY") (Some "CA") = (Some "NY", None) ∧
  dedup "CA" (Some "CA") (Some "NY") = (Some "NY", None).
Proof.
  assert (Hgen : ∀ c1 c2 c3,
    in_statecodes (Py.upper c1) → in_statecodes (Py.upper c2) →
    in_statecodes (Py.upper c3) →
    unemployment_visualization now_year fred c1 (Some c2) (Some c3) view
    = builder now_year fred
        (spec_dedup (Py.upper c1) (Py.upper c2) (Py.upper c3)) view).
  { intros c1 c2 c3 H1 H2 H3.
    assert (∀ c, in_statecodes (Py.upper c) → upper_slot (Some c) = Some (Py.upper c))
      as Hslot.
    { intros c Hc%registered_truthy. unfold upper_slot. cbn [Py.truthy].
      rewrite upper_truthy in Hc. by rewrite Hc. }
    rewrite endpoint_valid; rewrite ?(Hslot _ H2), ?(Hslot _ H3);
      [by apply dedup_dispatch | exact H1 | intros _; exact H2 | intros _; exact H3]. }
  intros H1 H2 H3 request png.
  split; [by apply Hgen|].
  destruct (spec_dedup_distinct (Py.upper code1) (Py.upper code2) (Py.upper code3))
    as [Hnd Hlen].
  split; [exact Hnd|]. split; [exact Hlen|].
  assert (Hex : ∀ c1 c2 c3 (r : io Response),
    in_statecodes (Py.upper c1) → in_statecodes (Py.upper c2) →
    in_statecodes (Py.upper c3) →
    builder now_year fred (spec_dedup (Py.upper c1) (Py.upper c2) (Py.upper c3)) view
      = r →
    unemployment_visualization now_year fred c1 (Some c2) (Some c3) view = r).
  { intros c1 c2 c3 r R1 R2 R3 <-. by apply Hgen. }
  split_and!;
    [ apply Hex; [by vm_compute..|reflexivity]
    | apply Hex; [by vm_compute..|reflexivity]
    | apply Hex; [by vm_compute..|reflexivity]
    | by vm_compute | by vm_compute | by vm_compute ].
Qed.

(** *** Validation *)

Lemma contains_unfold (sub s : string) :
  contains sub s =
    String.prefix sub s ||
    match s with EmptyString => false | String _ s' => contains sub s' end.
Proof. by destruct s. Qed.

Lemma prefix_append (a b : string) : String.prefix a (a +:+ b) = true.
Proof.
  induction a as [|ch a IH]; simpl; [by destruct b|].
  destruct (ascii_dec ch ch); [exact IH | done].
Qed.

Lemma contains_append (p sub q : string) : contains sub (p +:+ sub +:+ q) = true.
Proof.
  induction p as [|ch p IH].
  - change (EmptyString +:+ sub +:+ q) with (sub +:+ q).
    rewrite contains_unfold, prefix_append. done.
  - change (String ch p +:+ sub +:+ q) with (String ch (p +:+ sub +:+ q)).
    rewrite contains_unfold, IH. apply orb_true_r.
Qed.

(** C4 (as the code has it). When some non-empty code slot of a request
    with ASCII codes is, after upper-casing, not registered, the endpoint
    raises HTTP 404 with the detail 'State code <X> not found', where X
    is the first offending code in the order statecode, statecode2,
    statecode3; the detail contains X; and the log of retrievals is left
    as it was, so no upstream retrieval is attempted. *)
Theorem unknown_code_404 (statecode : string)
    (statecode2 statecode3 view : option string) (log : list string) :
  ascii_request statecode statecode2 statecode3 →
  (∃ slot, slot ∈ [Some statecode; statecode2; statecode3] ∧ Py.truthy slot ∧
           ¬ opt_in_statecodes (Py.upper <$> slot)) →
  ∃ code,
    first_offending statecode statecode2 statecode3 = Some code ∧
    ¬ in_statecodes code ∧
    unemployment_visualization now_year fred statecode statecode2 statecode3 view log
      = (Raise (HTTPException 404 ("State code " +:+ code +:+ " not found")), log) ∧
    contains code ("State code " +:+ code +:+ " not found").
Proof.
  intros _ (slot & Hin & Htr & Hbad).
  assert (Hfmt : ∀ code,
             contains code ("State code " +:+ code +:+ " not found")).
  { intros code. by rewrite contains_append. }
  assert (Hno : ∀ b : bool, b = false → ¬ b) by (intros b -> H; exact H).
  unfold first_offending, validated, unemployment_visualization. cbv zeta.
  destruct (in_statecodes (Py.upper statecode)) eqn:E1.
  2:{ exists (Py.upper statecode). cbn [List.find]. rewrite E1. cbn [negb].
      split_and!; [done | by apply Hno | done | apply Hfmt]. }
  cbn [List.find]. rewrite E1. cbn [negb].
  assert (Hslot : ∀ o, Py.truthy o = true →
            ∃ c, o = Some c ∧ slot_codes o = [Py.upper c] ∧
                 upper_slot o = Some (Py.upper c)).
  { intros [c|] Ho; [|done]. exists c. unfold slot_codes, upper_slot.
    by rewrite Ho. }
  assert (Hskip : ∀ o, Py.truthy o = false → slot_codes o = [] ∧ upper_slot o = o).
  { intros o Ho. unfold slot_codes, upper_slot. by rewrite Ho. }
  fold (upper_slot statecode2) (upper_slot statecode3).
  rewrite !upper_slot_truthy.
  destruct (Py.truthy statecode2) eqn:T2.
  - destruct (Hslot _ T2) as (c2 & -> & -> & ->).
    cbn [app List.find opt_in_statecodes].
    destruct (in_statecodes (Py.upper c2)) eqn:E2; cbn [negb andb].
    2:{ exists (Py.upper c2). split_and!; [done | by apply Hno | done | apply Hfmt]. }
    destruct (Py.truthy statecode3) eqn:T3.
    + destruct (Hslot _ T3) as (c3 & -> & -> & ->).
      cbn [app List.find opt_in_statecodes].
      destruct (in_statecodes (Py.upper c3)) eqn:E3; cbn [negb andb].
      2:{ exists (Py.upper c3). split_and!; [done | by apply Hno | done | apply Hfmt]. }
      exfalso. apply Hbad.
      rewrite !elem_of_cons, elem_of_nil in Hin.
      destruct Hin as [->|[->|[->|[]]]];
        cbn [fmap option_fmap option_map opt_in_statecodes];
        by rewrite ?E1, ?E2, ?E3.
    + exfalso. apply Hbad.
      rewrite !elem_of_cons, elem_of_nil in Hin.
      destruct Hin as [->|[->|[->|[]]]];
        cbn [fmap option_fmap option_map opt_in_statecodes];
        rewrite ?E1, ?E2; try done.
      by rewrite T3 in Htr.
  - destruct (Hskip _ T2) as [-> ->]. rewrite andb_false_r.
    destruct (Py.truthy statecode3) eqn:T3.
    + destruct (Hslot _ T3) as (c3 & -> & -> & ->).
      cbn [app List.find opt_in_statecodes].
      destruct (in_statecodes (Py.upper c3)) eqn:E3; cbn [negb andb].
      2:{ exists (Py.upper c3). split_and!; [done | by apply Hno | done | apply Hfmt]. }
      exfalso. apply Hbad.
      rewrite !elem_of_cons, elem_of_nil in Hin.
      destruct Hin as [->|[->|[->|[]]]];
        cbn [fmap option_fmap option_map opt_in_statecodes];
        rewrite ?E1, ?E3; try done.
      by rewrite T2 in Htr.
    + exfalso. apply Hbad.
      rewrite !elem_of_cons, elem_of_nil in Hin.
      destruct Hin as [->|[->|[->|[]]]];
        cbn [fmap option_fmap option_map opt_in_statecodes];
        rewrite ?E1; try done.
      * by rewrite T2 in Htr.
      * by rewrite T3 in Htr.
Qed.

(** *** One state against the national series *)

(** C9 (as the code has it). A request for CA alone, with a trailing
    mean of 5.0 for California and of 4.0 for the national series as the
    aligner has restricted it: the title is 'California Unemployment
    Rates Averaged Higher than the United States since <year-5>.',
    California is '#CC0000' and the United States is '#4BB543'. *)
Theorem california_higher (view : option string) (df df_us : DataFrame)
    (log : list string) :
  fred (state_url (Some "CA")) = Some df →
  fred us_url = Some df_us →
  observed df → dated df_us →
  trailing_mean now_year df = Py.of_Z 5 →
  trailing_mean now_year (select (meets_start df) df_us) = Py.of_Z 4 →
  ∃ fig,
    unemployment_visualization now_year fred "CA" None None view log
      = (Ok (if wants_png view then StreamingResponse fig "image/png"
             else to_json fig),
         log ++ [state_url (Some "CA"); us_url]) ∧
    title_of fig = Some
      ("California Unemployment Rates Averaged Higher than the United States since "
       +:+ Py.str (now_year - 5) +:+ ".") ∧
    legend fig = [(Some "California", Some "#CC0000");
                  (Some "United States", Some "#4BB543")] ∧
    dashes fig = [None; Some "dash"].
Proof.
  intros Hdf Hus O1 Dus Hst Hnat.
  assert (Hgt : Py.lt (trailing_mean now_year (select (meets_start df) df_us))
                      (trailing_mean now_year df))
    by (rewrite Hst, Hnat; by vm_compute).
  rewrite endpoint_valid; [|by vm_compute|intros []|intros []].
  change (Py.upper "CA") with "CA".
  change (upper_slot None) with (@None string).
  change (dedup "CA" None None) with (@None string, @None string).
  cbv beta iota. unfold dispatch. cbn [Py.truthy Py.truthy_str andb negb].
  assert (statecodes !! "CA" = Some "California") as Hname by (by vm_compute).
  destruct (single_style_higher (Some "California") _ _ Hgt) as (T1 & C1 & C2).
  destruct (wants_png view).
  - destruct (single_run "CA" (Some "True") df df_us log Hdf Hus O1 Dus)
      as (fig & R & T & L & D).
    exists fig. rewrite Hname in T, L. rewrite T, L, T1, C1, C2.
    split_and!; [exact R | reflexivity | reflexivity | exact D].
  - destruct (single_run "CA" None df df_us log Hdf Hus O1 Dus)
      as (fig & R & T & L & D).
    exists fig. rewrite Hname in T, L. rewrite T, L, T1, C1, C2.
    split_and!; [exact R | reflexivity | reflexivity | exact D].
Qed.

(** *** A request that matches no builder *)

(** C10. A registered statecode, no statecode2 (absent or empty) and a
    registered statecode3 different from statecode: deduplication leaves
    slot 2 empty and slot 3 filled, none of the three dispatch
    conditions holds, and the endpoint returns [None] (a 200 response
    with a null body) without any retrieval or error. *)
Theorem skipped_slot_returns_none (statecode code3 : string)
    (statecode2 view : option string) (log : list string) :
  in_statecodes (Py.upper statecode) →
  in_statecodes (Py.upper code3) →
  Py.upper statecode ≠ Py.upper code3 →
  Py.truthy statecode2 = false →
  dedup (Py.upper statecode) (upper_slot statecode2) (upper_slot (Some code3))
    = (statecode2, Some (Py.upper code3)) ∧
  unemployment_visualization now_year fred statecode statecode2 (Some code3) view log
    = (Ok PyNone, log).
Proof.
  intros H1 H3 Hne T2.
  pose proof (registered_truthy _ H1) as T1.
  pose proof (registered_truthy _ H3) as T3.
  assert (upper_slot statecode2 = statecode2) as E2
    by (unfold upper_slot; by rewrite T2).
  assert (upper_slot (Some code3) = Some (Py.upper code3)) as E3.
  { unfold upper_slot. cbn [Py.truthy]. rewrite upper_truthy in T3. by rewrite T3. }
  assert (Py.eqb (Some (Py.upper statecode)) statecode2 = false) as N12.
  { apply bool_decide_eq_false_2. intros <-. cbn in T2. congruence. }
  assert (Py.eqb statecode2 (Some (Py.upper code3)) = false) as N23.
  { apply bool_decide_eq_false_2. intros ->. cbn in T2. congruence. }
  assert (Py.eqb (Some (Py.upper statecode)) (Some (Py.upper code3)) = false) as N13.
  { apply bool_decide_eq_false_2. congruence. }
  assert (dedup (Py.upper statecode) statecode2 (Some (Py.upper code3))
          = (statecode2, Some (Py.upper code3))) as Hd.
  { unfold dedup. rewrite N12. cbn [andb]. cbv beta iota. by rewrite N13, N23, N12. }
  rewrite E2, E3. split; [exact Hd|].
  rewrite endpoint_valid;
    [| exact H1 | rewrite T2; intros [] | intros _; rewrite E3; exact H3].
  rewrite E2, E3, Hd. cbv beta iota. unfold dispatch.
  cbn [Py.truthy]. rewrite T1, T2, T3. reflexivity.
Qed.

(** *** The trailing mean *)

Lemma window_filter (y : Z) (series : list Row) :
  window y series = Percent <$> filter (λ r, year (Date r) = y) series.
Proof.
  induction series as [|r l IH]; [done|].
  cbn [window]. case_bool_decide as Hy.
  - by rewrite filter_cons_True, IH.
  - by rewrite filter_cons_False.
Qed.

Lemma window_other_years (y : Z) (series : list Row) :
  window y (filter (λ r, year (Date r) ≠ y) series) = [].
Proof.
  induction series as [|r l IH]; [done|].
  destruct (decide (year (Date r) = y)) as [Hy|Hy].
  - by rewrite filter_cons_False by tauto.
  - rewrite filter_cons_True by done. cbn [window].
    by rewrite bool_decide_eq_false_2.
Qed.

Lemma window_app (y : Z) (l k : list Row) :
  window y (l ++ k) = window y l ++ window y k.
Proof. by rewrite !window_filter, filter_app, fmap_app. Qed.

(** C8 (as the code has it). The means the comparators use are [np.mean]
    of the percentages of exactly the observations whose year is the
    current year minus 5: of each state series as it is served, in
    [single], [two] and [three], and, in [single], of the national series
    as the aligner has restricted it.  Observations of other years do not
    contribute: adding them before or after a series leaves the
    percentages that are averaged unchanged. *)
Theorem trailing_mean_window
    (statecode : string) (statecode2 statecode3 view : option string)
    (df df_2 df_3 df_us : DataFrame) (log : list string) :
  fred (state_url (Some statecode)) = Some df →
  fred (state_url statecode2) = Some df_2 →
  fred (state_url statecode3) = Some df_3 →
  fred us_url = Some df_us →
  observed df → observed df_2 → observed df_3 → dated df_us →
  let y := now_year - 5 in
  let mean_of (series : list Row) := np.mean (window y series) in
  let statename := statecodes !! statecode in
  let state2 := statecodes_get statecode2 in
  let state3 := statecodes_get statecode3 in
  (∃ fig,
     (single now_year fred statecode view log).1 = Ok (respond view fig) ∧
     let style := single_style now_year statename (mean_of df)
                    (mean_of (select (meets_start df) df_us)) in
     title_of fig = style !! "title" ∧
     legend fig = [(statename, style !! "state1color");
                   (Some "United States", style !! "us_color")]) ∧
  (∃ fig,
     (two now_year fred statecode statecode2 view log).1 = Ok (respond view fig) ∧
     let style := two_style now_year statename state2 (mean_of df) (mean_of df_2) in
     title_of fig = style !! "title" ∧
     legend fig = [(statename, style !! "state1color");
                   (state2, style !! "state2color");
                   (Some "United States", style !! "us_color")]) ∧
  (∃ fig,
     (three now_year fred statecode statecode2 statecode3 view log).1
       = Ok (respond view fig) ∧
     let style := three_style now_year statename state2 state3
                    (mean_of df) (mean_of df_2) (mean_of df_3) in
     title_of fig = style !! "title" ∧
     legend fig = [(statename, style !! "state1color");
                   (Some "United States", style !! "us_color");
                   (state2, style !! "state2color");
                   (state3, style !! "state3color")]) ∧
  (∀ series : list Row,
     window y series = Percent <$> filter (λ r, year (Date r) = y) series) ∧
  (∀ before series after : list Row,
     window y (filter (λ r, year (Date r) ≠ y) before ++ series ++
               filter (λ r, year (Date r) ≠ y) after)
     = window y series).
Proof.
  intros Hdf Hdf2 Hdf3 Hus O1 O2 O3 Dus y mean_of statename state2 state3.
  assert (Hmean : ∀ series, mean_of series = trailing_mean now_year series).
  { intros series. unfold mean_of, trailing_mean, y. by rewrite window_filter. }
  rewrite !Hmean.
  destruct (single_run statecode view df df_us log Hdf Hus O1 Dus)
    as (fig1 & R1 & T1 & L1 & _).
  destruct (two_run statecode statecode2 view df df_2 df_us log Hdf Hdf2 Hus O1 O2 Dus)
    as (fig2 & R2 & T2 & L2 & _).
  destruct (three_run statecode statecode2 statecode3 view df df_2 df_3 df_us log
              Hdf Hdf2 Hdf3 Hus O1 O2 O3 Dus) as (fig3 & R3 & T3 & L3 & _).
  split_and!.
  - exists fig1. rewrite R1. split; [reflexivity|]. split; [exact T1 | exact L1].
  - exists fig2. rewrite R2. split; [reflexivity|]. split; [exact T2 | exact L2].
  - exists fig3. rewrite R3. split; [reflexivity|]. split; [exact T3 | exact L3].
  - apply window_filter.
  - intros before series after.
    by rewrite !window_app, !window_other_years, app_nil_r.
Qed.

End claims.

(** *** The aligner *)

(** C3 (as the code has it). On state frames with observations and a
    national frame with dates the aligner keeps exactly the national
    observations whose year is at least the minimum year, whose month is
    at least the minimum month and whose day is at least the minimum day
    of every requested state series, each state series on its own and
    each date component on its own; the order of the observations is
    kept.  This is not a filter 'date >= start': for some state frame no
    start date gives the same result. *)
Theorem aligner_fieldwise (df df_2 df_3 df_us : DataFrame) :
  observed df → observed df_2 → observed df_3 → dated df_us →
  align_single df df_us = Ok (select (meets_start df) df_us) ∧
  align_two df df_2 df_us
    = Ok (select (λ r, meets_start df r ∧ meets_start df_2 r) df_us) ∧
  align_three df df_2 df_3 df_us
    = Ok (select (λ r, meets_start df r ∧ meets_start df_2 r ∧ meets_start df_3 r)
                 df_us) ∧
  ∃ st us, observed st ∧ dated us ∧
           ∀ start, align_single st us ≠ Ok (from_date start us).
Proof.
  intros O1 O2 O3 Dus.
  split; [by apply align_single_ok|].
  split; [by apply align_two_ok|].
  split; [by apply align_three_ok|].
  exists (observations [obs 2000 3 15 0]),
         (observations [obs 2000 3 15 0; obs 2001 1 1 0; obs 2001 3 15 0]).
  split; [done|]. split; [done|]. intros start.
  rewrite align_single_ok by done. cbn [select from_date rows].
  assert (filter (meets_start [obs 2000 3 15 0])
            [obs 2000 3 15 0; obs 2001 1 1 0; obs 2001 3 15 0]
          = [obs 2000 3 15 0; obs 2001 3 15 0]) as -> by (by vm_compute).
  intros [= E].
  destruct (decide (date_le start (Date (obs 2000 3 15 0)))) as [H1|H1];
    destruct (decide (date_le start (Date (obs 2001 1 1 0)))) as [H2|H2].
  - rewrite !filter_cons_True in E by done. by inversion E.
  - unfold date_le in *. cbn in *. lia.
  - rewrite filter_cons_False, filter_cons_True in E by done. by inversion E.
  - rewrite !filter_cons_False in E by done.
    destruct (decide (date_le start (Date (obs 2001 3 15 0)))).
    + rewrite filter_cons_True in E by done. by inversion E.
    + rewrite filter_cons_False in E by done. by inversion E.
Qed.

(** ** Further properties of the handlers *)

(** The first error of the aligner, if any. *)
Lemma aligner_error_none (states : list DataFrame) (df_us : DataFrame) :
  aligner_error states df_us = None ↔ Forall (λ df, observed df) states ∧ dated df_us.
Proof.
  unfold aligner_error. destruct (dated df_us); [|by intuition].
  induction states as [|df states IH]; [by intuition|].
  cbn [omap list_omap]. rewrite Forall_cons, <- state_error_none.
  destruct (state_error df); cbn [head]; [by intuition|]. tauto.
Qed.

Lemma aligner_error_kind (states : list DataFrame) (df_us : DataFrame) (e : exn) :
  aligner_error states df_us = Some e →
  (e = AttributeError ∨ e = ValueError) ∧
  (Forall (λ df, as_read df) states → e = AttributeError).
Proof.
  unfold aligner_error. destruct (dated df_us); [|intros [= <-]; auto].
  induction states as [|df states IH]; [done|].
  cbn [omap list_omap]. rewrite Forall_cons.
  destruct df as [|[|r l]]; cbn [state_error head as_read];
    [intros [= <-]; auto | intros [= <-]; split; [auto|by intros []] |].
  intros He. destruct (IH He) as [IH1 IH2]. split; [exact IH1|]. tauto.
Qed.

Lemma align_single_error (df df_us : DataFrame) :
  align_single df df_us =
    match aligner_error [df] df_us with
    | Some e => Raise e
    | None => Ok (select (meets_start df) df_us)
    end.
Proof.
  rewrite align_single_result. unfold aligner_error. cbn [omap list_omap].
  destruct (dated df_us); [|done]. by destruct (state_error df).
Qed.

Lemma align_two_error (df df_2 df_us : DataFrame) :
  align_two df df_2 df_us =
    match aligner_error [df; df_2] df_us with
    | Some e => Raise e
    | None => Ok (select (λ r, meets_start df r ∧ meets_start df_2 r) df_us)
    end.
Proof.
  rewrite align_two_result. unfold aligner_error. cbn [omap list_omap].
  destruct (dated df_us); [|done].
  by destruct (state_error df), (state_error df_2).
Qed.

Lemma align_three_error (df df_2 df_3 df_us : DataFrame) :
  align_three df df_2 df_3 df_us =
    match aligner_error [df; df_2; df_3] df_us with
    | Some e => Raise e
    | None =>
        Ok (select (λ r, meets_start df r ∧ meets_start df_2 r ∧ meets_start df_3 r)
                   df_us)
    end.
Proof.
  rewrite align_three_result. unfold aligner_error. cbn [omap list_omap].
  destruct (dated df_us); [|done].
  by destruct (state_error df), (state_error df_2), (state_error df_3).
Qed.

Lemma aligner_error_not_url (states : list DataFrame) (df_us : DataFrame) :
  aligner_error states df_us ≠ Some URLError.
Proof.
  intros E. destruct (aligner_error_kind _ _ _ E) as [[He|He] _]; discriminate He.
Qed.

Section handler_outcomes.

Context `{numpy : !np.Mean} (now_year : Z) (fred : string → option DataFrame).

(** X9. The handlers read the state series in slot order and the national
    series last, and stop at the first retrieval that fails: the URLs
    they request are those up to and including the first failing one, and
    they raise the retrieval error exactly when some retrieval fails. *)
Theorem retrievals_stop_at_first_failure
    (statecode : string) (statecode2 statecode3 view : option string)
    (log : list string) :
  let u1 := state_url (Some statecode) in
  let u2 := state_url statecode2 in
  let u3 := state_url statecode3 in
  (single now_year fred statecode view log).2 = log ++ attempted fred [u1; us_url] ∧
  (two now_year fred statecode statecode2 view log).2
    = log ++ attempted fred [u1; u2; us_url] ∧
  (three now_year fred statecode statecode2 statecode3 view log).2
    = log ++ attempted fred [u1; u2; u3; us_url] ∧
  ((single now_year fred statecode view log).1 = Raise URLError
     ↔ Exists (λ u, fred u = None) [u1; us_url]) ∧
  ((two now_year fred statecode statecode2 view log).1 = Raise URLError
     ↔ Exists (λ u, fred u = None) [u1; u2; us_url]) ∧
  ((three now_year fred statecode statecode2 statecode3 view log).1 = Raise URLError
     ↔ Exists (λ u, fred u = None) [u1; u2; u3; us_url]).
Proof.
  intros u1 u2 u3.
  rewrite single_cases, two_cases, three_cases. fold u1 u2 u3.
  rewrite !Exists_cons, Exists_nil. cbn [attempted].
  destruct (fred u1) as [df|] eqn:E1; [|by intuition].
  destruct (fred us_url) as [df_us|] eqn:E4;
    destruct (fred u2) as [df_2|] eqn:E2;
    try destruct (fred u3) as [df_3|] eqn:E3;
    rewrite ?align_single_error, ?align_two_error, ?align_three_error;
    repeat match goal with
           | |- context [aligner_error ?l ?us] =>
               let E := fresh "E" in
               pose proof (aligner_error_not_url l us);
               destruct (aligner_error l us) as [[]|] eqn:E
           end;
    cbn [fst snd]; intuition congruence.
Qed.

(** X10. Once every frame is served, a handler returns its chart exactly
    when every state frame has observations and the national frame has
    dates: the chart of the state frames as served and of the national
    frame restricted by the aligner.  Otherwise it raises the first error
    of the aligner, which is [AttributeError] (from [.dt]) or [ValueError]
    (from [min]), and is [AttributeError] when the state frames are as
    [read_csv] returns them. *)
Theorem served_frames_outcome
    (statecode : string) (statecode2 statecode3 view : option string)
    (df df_2 df_3 df_us : DataFrame) (log : list string) :
  fred (state_url (Some statecode)) = Some df →
  fred (state_url statecode2) = Some df_2 →
  fred (state_url statecode3) = Some df_3 →
  fred us_url = Some df_us →
  let statename := statecodes !! statecode in
  let state2 := statecodes_get statecode2 in
  let state3 := statecodes_get statecode3 in
  (single now_year fred statecode view log).1 =
    match aligner_error [df] df_us with
    | Some e => Raise e
    | None => Ok (respond view
                    (single_figure now_year statename df
                       (select (meets_start df) df_us)))
    end ∧
  (two now_year fred statecode statecode2 view log).1 =
    match aligner_error [df; df_2] df_us with
    | Some e => Raise e
    | None => Ok (respond view
                    (two_figure now_year statename state2 df df_2
                       (select (λ r, meets_start df r ∧ meets_start df_2 r) df_us)))
    end ∧
  (three now_year fred statecode statecode2 statecode3 view log).1 =
    match aligner_error [df; df_2; df_3] df_us with
    | Some e => Raise e
    | None => Ok (respond view
                    (three_figure now_year statename state2 state3 df df_2 df_3
                       (select (λ r, meets_start df r ∧ meets_start df_2 r ∧
                                     meets_start df_3 r) df_us)))
    end ∧
  ∀ states,
    (aligner_error states df_us = None
       ↔ Forall (λ df, observed df) states ∧ dated df_us) ∧
    ∀ e, aligner_error states df_us = Some e →
         (e = AttributeError ∨ e = ValueError) ∧
         (Forall (λ df, as_read df) states → e = AttributeError).
Proof.
  intros E1 E2 E3 E4 statename state2 state3.
  rewrite single_cases, two_cases, three_cases, E1, E2, E3, E4.
  rewrite align_single_error, align_two_error, align_three_error.
  cbn [fst]. split_and!.
  - by destruct (aligner_error [df] df_us).
  - by destruct (aligner_error [df; df_2] df_us).
  - by destruct (aligner_error [df; df_2; df_3] df_us).
  - intros states. split; [apply aligner_error_none|].
    intros e. apply aligner_error_kind.
Qed.

End handler_outcomes.

(** *** How the aligner composes *)

Lemma select_select (P Q : Row → Prop) `{∀ r, Decision (P r)} `{∀ r, Decision (Q r)}
    (df : DataFrame) :
  select Q (select P df) = select (λ r, P r ∧ Q r) df.
Proof.
  destruct df as [|l]; [done|]. cbn. f_equal.
  rewrite list_filter_filter. apply list_filter_iff. tauto.
Qed.

(** X11. Aligning with two or three state series is aligning with one
    after the other, errors included: the first step that fails raises
    its error.  The aligned national series does not depend on the order
    in which the state series are given. *)
Theorem align_composes (df df_2 df_3 df_us : DataFrame) :
  align_two df df_2 df_us = align_single df df_us ≫= align_single df_2 ∧
  align_three df df_2 df_3 df_us
    = (align_single df df_us ≫= align_single df_2) ≫= align_single df_3 ∧
  (∀ us', align_two df df_2 df_us = Ok us' ↔ align_two df_2 df df_us = Ok us') ∧
  (∀ us', align_three df df_2 df_3 df_us = Ok us'
          ↔ align_three df_3 df df_2 df_us = Ok us') ∧
  (∀ us', align_three df df_2 df_3 df_us = Ok us'
          ↔ align_three df_2 df df_3 df_us = Ok us').
Proof.
  rewrite !align_two_result, !align_three_result, !align_single_result.
  split_and!.
  - destruct (dated df_us) eqn:D; [|done].
    destruct (state_error df); [done|]. cbn [mbind result_bind].
    rewrite align_single_result, !dated_select, D.
    destruct (state_error df_2); [done|]. f_equal. by rewrite select_select.
  - destruct (dated df_us) eqn:D; [|done].
    destruct (state_error df); [done|]. cbn [mbind result_bind].
    rewrite align_single_result, !dated_select, D.
    destruct (state_error df_2); [done|]. cbn [mbind result_bind].
    rewrite align_single_result, !dated_select, D.
    destruct (state_error df_3); [done|]. f_equal. rewrite !select_select.
    apply select_iff. tauto.
  - intros us'. destruct (dated df_us); [|done].
    destruct (state_error df), (state_error df_2); try done.
    rewrite (select_iff (λ r, meets_start df r ∧ meets_start df_2 r)
                        (λ r, meets_start df_2 r ∧ meets_start df r)); [done|tauto].
  - intros us'. destruct (dated df_us); [|done].
    destruct (state_error df), (state_error df_2), (state_error df_3); try done.
    rewrite (select_iff (λ r, meets_start df r ∧ meets_start df_2 r ∧ meets_start df_3 r)
               (λ r, meets_start df_3 r ∧ meets_start df r ∧ meets_start df_2 r));
      [done|tauto].
  - intros us'. destruct (dated df_us); [|done].
    destruct (state_error df), (state_error df_2), (state_error df_3); try done.
    rewrite (select_iff (λ r, meets_start df r ∧ meets_start df_2 r ∧ meets_start df_3 r)
               (λ r, meets_start df_2 r ∧ meets_start df r ∧ meets_start df_3 r));
      [done|tauto].
Qed.

(** X12. What the aligner returns is the national series with some
    observations left out, in the same order; every observation it keeps
    meets the thresholds, and aligning its result again changes
    nothing. *)
Theorem align_keeps_order_and_is_idempotent (df df_2 df_3 df_us us' : DataFrame) :
  align_three df df_2 df_3 df_us = Ok us' →
  us' `sublist_of` df_us ∧
  Forall (λ r, meets_start df r ∧ meets_start df_2 r ∧ meets_start df_3 r) us' ∧
  align_three df df_2 df_3 us' = Ok us'.
Proof.
  intros (O1 & O2 & O3 & Dus & Dus' & ->)%align_three_inv.
  split_and!.
  - rewrite rows_select. apply sublist_filter.
  - rewrite rows_select. apply Forall_forall. by intros r [Hr _]%list_elem_of_filter.
  - rewrite align_three_ok by assumption. f_equal. rewrite select_select.
    apply select_iff. tauto.
Qed.

(** X13. When the state series has an observation in January and one on the
    first day of a month, and the national series holds calendar dates,
    the thresholds on the month and on the day let everything through:
    the aligner keeps the national observations from the first year of the
    state series on, which is the filter 'date >= 1 January of that
    year'. *)
Theorem align_january_start (df df_us : DataFrame) :
  Exists (λ o, month (Date o) = 1) df →
  Exists (λ o, day (Date o) = 1) df →
  dated df_us →
  Forall (λ r, calendar (Date r)) df_us →
  ∃ y, dt_year df ≫= py_min = Ok y ∧
       align_single df df_us = Ok (select (λ r, y ≤ year (Date r)) df_us) ∧
       align_single df df_us = Ok (from_date (mkTimestamp y 1 1) df_us).
Proof.
  intros Hjan Hfirst Dus Hcal.
  assert (O1 : observed df).
  { destruct df as [|[|r l]]; [by apply Exists_nil in Hjan..|done]. }
  destruct (state_minimums df O1) as (y & m & d & Ey & _ & _ & Hr).
  exists y. split; [exact Ey|]. rewrite align_single_ok by assumption.
  assert (Hsel : ∀ P (HP : ∀ r, Decision (P r)),
            (∀ r, calendar (Date r) → (P r ↔ y ≤ year (Date r))) →
            select (meets_start df) df_us = select P df_us).
  { intros P HP HPy. destruct df_us as [|us]; [done|]. cbn [select rows] in *.
    f_equal. clear Dus.
    induction us as [|r us IH]; [done|].
    apply Forall_cons in Hcal as [Hc Hus].
    assert (meets_start df r ↔ P r) as Hiff.
    { rewrite (HPy r Hc). destruct (Hr r) as (-> & _ & _).
      unfold meets_start, reaches. split; [tauto|].
      intros Hyr. split_and!; [done|..].
      - eapply Exists_impl; [exact Hjan|]. intros o Ho. simpl in Ho.
        rewrite Ho. apply Hc.
      - eapply Exists_impl; [exact Hfirst|]. intros o Ho. simpl in Ho.
        rewrite Ho. apply Hc. }
    destruct (decide (P r)) as [Hp|Hp].
    - rewrite !filter_cons_True by tauto. f_equal. by apply IH.
    - rewrite !filter_cons_False by tauto. by apply IH. }
  split; f_equal.
  - by apply Hsel.
  - unfold from_date. apply Hsel. intros r [Hm Hd].
    unfold date_le. cbn [year month day]. lia.
Qed.

(** *** When a chart has no title *)

Lemma float_cases (a b : Py.float) :
  a = Py.NaN ∨ b = Py.NaN ∨ Py.lt a b ∨ Py.lt b a ∨ Py.eq a b.
Proof.
  destruct (decide (a = Py.NaN)) as [?|Na]; [by left|].
  destruct (decide (b = Py.NaN)) as [?|Nb]; [by right; left|].
  right; right. by apply comparable.
Qed.

Lemma pair_style_nan (now_year : Z) (n1 n2 : option string) (a b : Py.float) :
  a = Py.NaN ∨ b = Py.NaN →
  two_style now_year n1 n2 a b = ∅ ∧ single_style now_year n1 a b = ∅.
Proof.
  unfold two_style, single_style.
  intros [->| ->].
  - destruct (nan_compares_false b) as (-> & -> & -> & _). done.
  - destruct (nan_compares_false a) as (_ & _ & _ & -> & -> & ->). done.
Qed.

(** A condition of [three] that holds puts the three means in a strict
    order. *)
Lemma chain_strict (x y z : Py.float) :
  Py.gt x y && Py.gt y z = true → Py.lt z y ∧ Py.lt y x ∧ Py.lt z x.
Proof.
  rewrite !gt_lt. intros [Hyx Hzy]%andb_true_iff.
  apply Is_true_true_2 in Hyx, Hzy.
  split_and!; [done..|]. by eapply lt_trans.
Qed.

Lemma three_style_not_strict (now_year : Z) (n1 n2 n3 : option string)
    (a b c : Py.float) :
  ¬ strict_order a b c → three_style now_year n1 n2 n3 a b c = ∅.
Proof.
  intros Hns. unfold three_style.
  repeat match goal with
         | |- context [Py.gt ?x ?y && Py.gt ?y ?z] =>
             let E := fresh "E" in
             destruct (Py.gt x y && Py.gt y z) eqn:E;
             [ exfalso; apply Hns; apply chain_strict in E as (? & ? & ?);
               unfold strict_order; tauto | clear E ]
         end.
  done.
Qed.

(** X14. The three branches of [single] and of [two] cover every pair of
    numbers: the chart of one or two states has no title exactly when one
    of the two compared means is [NaN].  The chart of three states has no
    title exactly when the three means are not in a strict order (a tie,
    or a [NaN]).  A chart without title has no line color either. *)
Theorem untitled_chart_iff `{numpy : !np.Mean} (now_year : Z)
    (n1 n2 n3 : option string) (df df_2 df_3 df_us : DataFrame) :
  let mean := trailing_mean now_year in
  (title_of (single_figure now_year n1 df df_us) = None
     ↔ mean df = Py.NaN ∨ mean df_us = Py.NaN) ∧
  (title_of (two_figure now_year n1 n2 df df_2 df_us) = None
     ↔ mean df = Py.NaN ∨ mean df_2 = Py.NaN) ∧
  (title_of (three_figure now_year n1 n2 n3 df df_2 df_3 df_us) = None
     ↔ ¬ strict_order (mean df) (mean df_2) (mean df_3)) ∧
  (title_of (single_figure now_year n1 df df_us) = None →
   legend (single_figure now_year n1 df df_us)
     = [(n1, None); (Some "United States", None)]) ∧
  (title_of (two_figure now_year n1 n2 df df_2 df_us) = None →
   legend (two_figure now_year n1 n2 df df_2 df_us)
     = [(n1, None); (n2, None); (Some "United States", None)]) ∧
  (title_of (three_figure now_year n1 n2 n3 df df_2 df_3 df_us) = None →
   legend (three_figure now_year n1 n2 n3 df df_2 df_3 df_us)
     = [(n1, None); (Some "United States", None); (n2, None); (n3, None)]).
Proof.
  intros mean. unfold mean.
  change (title_of (single_figure now_year n1 df df_us))
    with (single_style now_year n1 (trailing_mean now_year df)
            (trailing_mean now_year df_us) !! "title").
  change (title_of (two_figure now_year n1 n2 df df_2 df_us))
    with (two_style now_year n1 n2 (trailing_mean now_year df)
            (trailing_mean now_year df_2) !! "title").
  change (title_of (three_figure now_year n1 n2 n3 df df_2 df_3 df_us))
    with (three_style now_year n1 n2 n3 (trailing_mean now_year df)
            (trailing_mean now_year df_2) (trailing_mean now_year df_3) !! "title").
  change (legend (single_figure now_year n1 df df_us))
    with (let style := single_style now_year n1 (trailing_mean now_year df)
                         (trailing_mean now_year df_us) in
          [(n1, style !! "state1color"); (Some "United States", style !! "us_color")]).
  change (legend (two_figure now_year n1 n2 df df_2 df_us))
    with (let style := two_style now_year n1 n2 (trailing_mean now_year df)
                         (trailing_mean now_year df_2) in
          [(n1, style !! "state1color"); (n2, style !! "state2color");
           (Some "United States", style !! "us_color")]).
  change (legend (three_figure now_year n1 n2 n3 df df_2 df_3 df_us))
    with (let style := three_style now_year n1 n2 n3 (trailing_mean now_year df)
                         (trailing_mean now_year df_2) (trailing_mean now_year df_3) in
          [(n1, style !! "state1color"); (Some "United States", style !! "us_color");
           (n2, style !! "state2color"); (n3, style !! "state3color")]).
  generalize (trailing_mean now_year df) (trailing_mean now_year df_2)
             (trailing_mean now_year df_3) (trailing_mean now_year df_us).
  intros a b c u. cbv zeta.
  assert (H1 : single_style now_year n1 a u !! "title" = None ↔ a = Py.NaN ∨ u = Py.NaN).
  { split.
    - intros Hnone.
      destruct (float_cases a u) as [?|[?|[H|[H|H]]]]; [by left|by right|exfalso..].
      + destruct (single_style_lower now_year n1 _ _ H) as [T _]. congruence.
      + destruct (single_style_higher now_year n1 _ _ H) as [T _]. congruence.
      + destruct (single_style_same now_year n1 _ _ H) as [T _]. congruence.
    - intros H. by destruct (pair_style_nan now_year n1 n1 a u H) as [_ ->]. }
  assert (H2 : two_style now_year n1 n2 a b !! "title" = None ↔ a = Py.NaN ∨ b = Py.NaN).
  { split.
    - intros Hnone.
      destruct (float_cases a b) as [?|[?|[H|[H|H]]]]; [by left|by right|exfalso..].
      + destruct (two_style_lower now_year n1 n2 _ _ H) as [T _]. congruence.
      + destruct (two_style_higher now_year n1 n2 _ _ H) as [T _]. congruence.
      + destruct (two_style_same now_year n1 n2 _ _ H) as [T _]. congruence.
    - intros H. by destruct (pair_style_nan now_year n1 n2 a b H) as [-> _]. }
  assert (H3 : three_style now_year n1 n2 n3 a b c !! "title" = None
               ↔ ¬ strict_order a b c).
  { split.
    - intros Hnone Hs.
      destruct (three_style_strict now_year n1 n2 n3 a b c Hs)
        as (i & t & c1 & c2 & c3 & _ & _ & _ & Hst & _).
      destruct (three_fill_lookup t c1 c2 c3) as [T _]. congruence.
    - intros Hns. by rewrite three_style_not_strict. }
  split_and!; [exact H1 | exact H2 | exact H3 | ..].
  - intros H%H1. by destruct (pair_style_nan now_year n1 n1 a u H) as [_ ->].
  - intros H%H2. by destruct (pair_style_nan now_year n1 n2 a b H) as [-> _].
  - intros H%H3. by rewrite three_style_not_strict.
Qed.

(** *** One state against the national series, either way *)

Section single_state.

Context `{numpy : !np.Mean} (now_year : Z) (fred : string → option DataFrame).

(** X15. For any state whose series has an observation, and a national
    series with dates, [single] compares the trailing mean of the state
    with that of the aligned national series (the doubles that [np.mean]
    returns): a higher state mean gives the 'Higher' title with the state
    red and the national series green, a lower one the 'Lower' title with
    the state green and the national series red. *)
Theorem single_compares (statecode : string) (view : option string)
    (df df_us : DataFrame) (log : list string) :
  fred (state_url (Some statecode)) = Some df →
  fred us_url = Some df_us →
  observed df → dated df_us →
  let statename := statecodes !! statecode in
  let st_5yrs := trailing_mean now_year df in
  let us_5yrs := trailing_mean now_year (select (meets_start df) df_us) in
  (Py.gt st_5yrs us_5yrs →
   ∃ fig,
     single now_year fred statecode view log
       = (Ok (respond view fig), log ++ [state_url (Some statecode); us_url]) ∧
     title_of fig = Some (Py.fmt statename +:+
       " Unemployment Rates Averaged Higher than the United States" +:+ since now_year) ∧
     legend fig = [(statename, Some "#CC0000"); (Some "United States", Some "#4BB543")]) ∧
  (Py.lt st_5yrs us_5yrs →
   ∃ fig,
     single now_year fred statecode view log
       = (Ok (respond view fig), log ++ [state_url (Some statecode); us_url]) ∧
     title_of fig = Some (Py.fmt statename +:+
       " Unemployment Rates Averaged Lower than the United States" +:+ since now_year) ∧
     legend fig = [(statename, Some "#4BB543"); (Some "United States", Some "#CC0000")]).
Proof.
  intros Hdf Hus O1 Dus statename st_5yrs us_5yrs. split; intros Hcmp.
  - rewrite gt_lt in Hcmp.
    destruct (single_run now_year fred statecode view df df_us log Hdf Hus O1 Dus)
      as (fig & R & T & L & _).
    fold statename st_5yrs us_5yrs in T, L.
    destruct (single_style_higher now_year statename _ _ Hcmp) as (T1 & C1 & C2).
    exists fig. rewrite T, L, T1, C1, C2.
    split_and!; [exact R | reflexivity | reflexivity].
  - destruct (single_run now_year fred statecode view df df_us log Hdf Hus O1 Dus)
      as (fig & R & T & L & _).
    fold statename st_5yrs us_5yrs in T, L.
    destruct (single_style_lower now_year statename _ _ Hcmp) as (T1 & C1 & C2).
    exists fig. rewrite T, L, T1, C1, C2.
    split_and!; [exact R | reflexivity | reflexivity].
Qed.

End single_state.

(** *** The deduplication on any slots *)

Lemma eqb_true (a b : option string) : Py.eqb a b = true ↔ a = b.
Proof. unfold Py.eqb. by rewrite bool_decide_eq_true. Qed.

(** The four deduplication statements, case by case. *)
Lemma dedup_cases (statecode : string) (statecode2 statecode3 : option string) :
  dedup statecode statecode2 statecode3 =
    if decide (Some statecode = statecode2) then
      if decide (Some statecode = statecode3) then (None, None)
      else if Py.truthy statecode3 then (statecode3, None)
           else (None, statecode3)
    else
      if decide (Some statecode = statecode3) then (statecode2, None)
      else if decide (statecode2 = statecode3) then (statecode2, None)
           else (statecode2, statecode3).
Proof.
  unfold dedup, Py.eqb.
  repeat (first [ case_bool_decide | case_decide | progress cbn [andb]
                | progress cbv beta iota zeta ]);
    simplify_eq; try done.
  all: by destruct (Py.truthy _).
Qed.

(** X1. Deduplicating twice is deduplicating once, and after deduplication
    no filled slot repeats the code of an earlier slot; the slots that
    remain hold codes of the request. *)
Theorem dedup_idempotent_distinct (statecode : string)
    (statecode2 statecode3 : option string) :
  let '(s2, s3) := dedup statecode statecode2 statecode3 in
  dedup statecode s2 s3 = (s2, s3) ∧
  (Py.truthy s2 → s2 ≠ Some statecode) ∧
  (Py.truthy s3 → s3 ≠ Some statecode ∧ s3 ≠ s2) ∧
  (s2 = None ∨ s2 = statecode2 ∨ s2 = statecode3) ∧
  (s3 = None ∨ s3 = statecode3).
Proof.
  rewrite dedup_cases.
  repeat case_decide; try destruct (Py.truthy statecode3) eqn:T3;
    rewrite dedup_cases;
    repeat case_decide; simplify_eq; rewrite ?T3;
    split_and!; auto; try done; try (intros; split; congruence); try congruence.
Qed.

(** *** The endpoint on any request *)

Lemma slot_shape (c : option string) :
  (Py.truthy c = false ∧ upper_slot c = c ∧ slot_codes c = []) ∨
  (∃ s, c = Some s ∧ Py.truthy c = true ∧ upper_slot c = Some (Py.upper s) ∧
        slot_codes c = [Py.upper s] ∧ Py.truthy_str (Py.upper s) = true).
Proof.
  unfold upper_slot, slot_codes. destruct (Py.truthy c) eqn:T; [right|by left].
  destruct c as [s|]; [|done]. exists s. split_and!; try done.
  by rewrite upper_truthy.
Qed.


Lemma dedup_normal_form (statecode : string) (c2 c3 : option string) :
  Py.truthy_str (Py.upper statecode) = true →
  let u1 := Py.upper statecode in
  let dc := distinct_codes statecode c2 c3 in
  let '(a, b) := dedup u1 (upper_slot c2) (upper_slot c3) in
  if gap statecode c2 c3 then Py.truthy a = false ∧ Py.truthy b = true
  else
    (Py.truthy a = false ∧ Py.truthy b = false ∧ dc = [u1]) ∨
    (∃ x, a = Some x ∧ Py.truthy_str x = true ∧ Py.truthy b = false ∧ dc = [u1; x]) ∨
    (∃ x y, a = Some x ∧ b = Some y ∧ Py.truthy_str x = true ∧
            Py.truthy_str y = true ∧ dc = [u1; x; y]).
Proof.
  intros N1 u1 dc. subst u1 dc. unfold gap, distinct_codes.
  destruct (slot_shape c2) as [(T2 & U2 & S2)|(s2 & -> & T2 & U2 & S2 & N2)];
    destruct (slot_shape c3) as [(T3 & U3 & S3)|(s3 & -> & T3 & U3 & S3 & N3)];
    rewrite U2, U3, S2, S3, ?T2, ?T3; cbn [negb andb app].
  all: rewrite dedup_cases.
  all: cbn [filter list_filter remove_dups app]; unfold decide_rel.
  all: repeat (case_decide; simplify_eq; cbn [Py.truthy] in *;
               try (exfalso; congruence)).
  all: cbn [filter list_filter remove_dups app]; unfold decide_rel.
  all: repeat match goal with
            | |- context [list_elem_of_dec ?x ?l] =>
                destruct (list_elem_of_dec x l) as [Hin|Hin];
                [ revert Hin | revert Hin ];
                rewrite ?elem_of_cons, elem_of_nil; intros Hin;
                try (exfalso; intuition congruence); clear Hin
            end.
  all: try (case_bool_decide as Hg;
       try (exfalso; first [ destruct Hg as [Hg1 Hg2]; congruence
                           | apply Hg; split; congruence ])).
  all: rewrite ?T2, ?T3, ?N2, ?N3.
  all: cbn [Py.truthy].
  all: try (by split).
  all: try (left; by split_and!).
  all: try (right; left; eexists; by split_and!).
  all: try (right; left; eexists; split_and!; [reflexivity|done|done|congruence]).
  all: try (right; right; do 2 eexists; by split_and!).
Qed.

(** Validation passes exactly when every validated code is registered. *)
Lemma first_offending_none (statecode : string) (statecode2 statecode3 : option string) :
  first_offending statecode statecode2 statecode3 = None ↔
  Forall (λ c, in_statecodes c) (validated statecode statecode2 statecode3).
Proof.
  unfold first_offending. generalize (validated statecode statecode2 statecode3).
  intros l. induction l as [|c l IH]; [by split|].
  cbn [List.find]. rewrite Forall_cons.
  destruct (in_statecodes c); cbn [negb]; [rewrite IH; cbn [Is_true]; tauto|].
  split; [done|]. by intros [[] _].
Qed.

Section endpoint.
Context `{numpy : !np.Mean} (now_year : Z) (fred : string → option DataFrame).

Lemma endpoint_validation (statecode : string) (statecode2 statecode3 view : option string) :
  unemployment_visualization now_year fred statecode statecode2 statecode3 view =
    match first_offending statecode statecode2 statecode3 with
    | Some code =>
        raise (HTTPException 404 ("State code " +:+ code +:+ " not found"))
    | None =>
        let '(s2, s3) := dedup (Py.upper statecode) (upper_slot statecode2)
                               (upper_slot statecode3) in
        dispatch now_year fred (Py.upper statecode) s2 s3 view
    end.
Proof.
  unfold first_offending, validated, unemployment_visualization. cbv zeta.
  destruct (slot_shape statecode2) as [(T2 & U2 & S2)|(s2 & -> & T2 & U2 & S2 & N2)];
    destruct (slot_shape statecode3) as [(T3 & U3 & S3)|(s3 & -> & T3 & U3 & S3 & N3)];
    rewrite U2, U3, S2, S3, ?T2, ?T3;
    cbn [app List.find Py.truthy opt_in_statecodes negb andb];
    rewrite ?N2, ?N3, ?andb_false_r;
    (destruct (in_statecodes (Py.upper statecode)) eqn:E1; cbn [negb]; [|reflexivity]).
  all: try (destruct (in_statecodes (Py.upper s2)) eqn:E2; cbn [negb andb];
            [|reflexivity]).
  all: try (destruct (in_statecodes (Py.upper s3)) eqn:E3; cbn [negb andb];
            [|reflexivity]).
  all: reflexivity.
Qed.

Lemma endpoint_cases (statecode : string) (statecode2 statecode3 view : option string) :
  unemployment_visualization now_year fred statecode statecode2 statecode3 view =
    match first_offending statecode statecode2 statecode3 with
    | Some code =>
        raise (HTTPException 404 ("State code " +:+ code +:+ " not found"))
    | None =>
        if gap statecode statecode2 statecode3 then mret PyNone
        else builder now_year fred (distinct_codes statecode statecode2 statecode3) view
    end.
Proof.
  rewrite endpoint_validation.
  destruct (first_offending statecode statecode2 statecode3) as [code|] eqn:Ef; [done|].
  apply first_offending_none in Ef. unfold validated in Ef.
  apply Forall_cons in Ef as [H1 _].
  pose proof (registered_truthy _ H1) as N1.
  pose proof (dedup_normal_form statecode statecode2 statecode3 N1) as Hn.
  cbv zeta in Hn.
  destruct (dedup (Py.upper statecode) (upper_slot statecode2) (upper_slot statecode3))
    as [a b].
  unfold dispatch. rewrite N1.
  destruct (gap statecode statecode2 statecode3).
  - destruct Hn as [-> ->]. reflexivity.
  - destruct Hn as [(-> & -> & ->)|[(x & -> & Tx & -> & ->)|(x & y & -> & -> & Tx & Ty & ->)]];
      cbn [Py.truthy builder]; rewrite ?Tx, ?Ty; cbn [andb negb];
      by destruct (wants_png view).
Qed.

End endpoint.

(** *** What the endpoint returns *)

Lemma respond_chart (view : option string) (fig : go.Figure) :
  chart_of (respond view fig) = Some fig ∧ respond view fig ≠ PyNone.
Proof. unfold respond. by destruct (Py.truthy view). Qed.

Lemma single_figure_invariant `{numpy : !np.Mean} (now_year : Z) (n1 : option string)
    (df df_us : DataFrame) :
  chart_invariant (single_figure now_year n1 df df_us) ∧
  length (go.data (single_figure now_year n1 df df_us)) = 2%nat.
Proof.
  unfold single_figure. cbv zeta.
  generalize (single_style now_year n1 (trailing_mean now_year df)
                (trailing_mean now_year df_us)).
  intros style. split; [|done].
  unfold chart_invariant. cbv zeta. split_and!; try done; try (cbn; lia).
  eexists. split; [reflexivity|done].
Qed.

Lemma two_figure_invariant `{numpy : !np.Mean} (now_year : Z) (n1 n2 : option string)
    (df df_2 df_us : DataFrame) :
  chart_invariant (two_figure now_year n1 n2 df df_2 df_us) ∧
  length (go.data (two_figure now_year n1 n2 df df_2 df_us)) = 3%nat.
Proof.
  unfold two_figure. cbv zeta.
  generalize (two_style now_year n1 n2 (trailing_mean now_year df)
                (trailing_mean now_year df_2)).
  intros style. split; [|done].
  unfold chart_invariant. cbv zeta. split_and!; try done; try (cbn; lia).
  eexists. split; [reflexivity|done].
Qed.

Lemma three_figure_invariant `{numpy : !np.Mean} (now_year : Z)
    (n1 n2 n3 : option string)
    (df df_2 df_3 df_us : DataFrame) :
  chart_invariant (three_figure now_year n1 n2 n3 df df_2 df_3 df_us) ∧
  length (go.data (three_figure now_year n1 n2 n3 df df_2 df_3 df_us)) = 4%nat.
Proof.
  unfold three_figure. cbv zeta.
  generalize (three_style now_year n1 n2 n3 (trailing_mean now_year df)
                (trailing_mean now_year df_2) (trailing_mean now_year df_3)).
  intros style. split; [|done].
  unfold chart_invariant. cbv zeta. split_and!; try done; try (cbn; lia).
  eexists. split; [reflexivity|done].
Qed.

Lemma attempted_prefix (fred : string → option DataFrame) (urls : list string) :
  attempted fred urls `prefix_of` urls.
Proof.
  induction urls as [|u urls IH]; [done|]. cbn [attempted].
  destruct (fred u); [by apply prefix_cons | apply prefix_cons, prefix_nil].
Qed.

Lemma distinct_codes_facts (statecode : string) (statecode2 statecode3 : option string) :
  let dc := distinct_codes statecode statecode2 statecode3 in
  NoDup dc ∧ (1 ≤ length dc ≤ 3)%nat ∧
  head dc = Some (Py.upper statecode) ∧
  (∀ c, c ∈ dc → c ∈ validated statecode statecode2 statecode3).
Proof.
  intros dc. subst dc. unfold distinct_codes, validated.
  set (u1 := Py.upper statecode).
  set (l := slot_codes statecode2 ++ slot_codes statecode3).
  assert (length l ≤ 2)%nat as Hl.
  { unfold l. rewrite length_app.
    destruct (slot_shape statecode2) as [(_ & _ & ->)|(? & _ & _ & _ & -> & _)];
      destruct (slot_shape statecode3) as [(_ & _ & ->)|(? & _ & _ & _ & -> & _)];
      simpl; lia. }
  split_and!.
  - apply NoDup_cons. split; [|apply NoDup_remove_dups].
    rewrite elem_of_remove_dups, list_elem_of_filter. tauto.
  - cbn [length]. lia.
  - cbn [length].
    pose proof (length_filter (λ c, c ≠ u1) l) as Hf.
    assert (∀ k : list string, (length (remove_dups k) ≤ length k)%nat) as Hr.
    { induction k as [|c k IH]; [done|]. cbn [remove_dups length].
      case_match; simpl; lia. }
    specialize (Hr (filter (λ c, c ≠ u1) l)). lia.
  - done.
  - intros c [->|Hc]%elem_of_cons; [by left|]. right.
    by apply elem_of_remove_dups, list_elem_of_filter in Hc as [_ Hc].
Qed.

(** The request that gets no chart, in terms of its slots. *)
Lemma gap_iff (statecode : string) (statecode2 statecode3 : option string) :
  gap statecode statecode2 statecode3 = true ↔
  Py.truthy statecode2 = false ∧
  ∃ code3, statecode3 = Some code3 ∧ Py.truthy_str code3 = true ∧
           Py.upper code3 ≠ Py.upper statecode.
Proof.
  unfold gap. rewrite andb_true_iff, negb_true_iff, bool_decide_eq_true.
  destruct (slot_shape statecode3) as [(T3 & _ & ->)|(s3 & -> & T3 & _ & -> & _)].
  - split; [by intros [_ [[] _]]|].
    intros (_ & code3 & -> & T3' & _). cbn [Py.truthy] in T3.
    rewrite T3' in T3. discriminate T3.
  - split.
    + intros (T2 & _ & Hne). split; [exact T2|]. exists s3.
      split; [reflexivity|]. split; [exact T3|]. intros E. apply Hne. by rewrite E.
    + intros (T2 & code3 & [= <-] & _ & Hne). split; [exact T2|].
      split; [discriminate|]. intros [= E]. by apply Hne.
Qed.

Section endpoint_properties.

Context `{numpy : !np.Mean} (now_year : Z) (fred : string → option DataFrame).

(** What a builder does with a request of one to three codes. *)
Lemma builder_outcome (codes : list string) (view : option string)
    (log : list string) :
  (1 ≤ length codes ≤ 3)%nat →
  let res := builder now_year fred codes view log in
  res.2 = log ++ attempted fred (((state_url ∘ Some) <$> codes) ++ [us_url]) ∧
  (res.1 = Raise URLError ∨ res.1 = Raise AttributeError ∨
   res.1 = Raise ValueError ∨
   ∃ fig, res.1 = Ok (if wants_png view then StreamingResponse fig "image/png"
                      else to_json fig) ∧
          chart_invariant fig ∧ length (go.data fig) = S (length codes)).
Proof.
  intros Hlen.
  destruct codes as [|c1 [|c2 [|c3 [|c4 codes]]]]; cbn [length] in Hlen; try lia;
    cbn [builder fmap list_fmap app attempted compose length].
  - rewrite single_cases.
    destruct (fred (state_url (Some c1))) as [df|]; [|by auto].
    destruct (fred us_url) as [df_us|]; [|by auto].
    rewrite align_single_error.
    pose proof (aligner_error_kind [df] df_us) as Hk.
    destruct (aligner_error [df] df_us) as [e|]; cbn [fst snd];
      [by destruct (Hk e eq_refl) as [[->| ->] _]; auto|].
    split; [done|]. do 3 right. eexists. split; [|apply single_figure_invariant].
    by destruct (wants_png view).
  - rewrite two_cases.
    destruct (fred (state_url (Some c1))) as [df|]; [|by auto].
    destruct (fred (state_url (Some c2))) as [df_2|]; [|by auto].
    destruct (fred us_url) as [df_us|]; [|by auto].
    rewrite align_two_error.
    pose proof (aligner_error_kind [df; df_2] df_us) as Hk.
    destruct (aligner_error [df; df_2] df_us) as [e|]; cbn [fst snd];
      [by destruct (Hk e eq_refl) as [[->| ->] _]; auto|].
    split; [done|]. do 3 right. eexists. split; [|apply two_figure_invariant].
    by destruct (wants_png view).
  - rewrite three_cases.
    destruct (fred (state_url (Some c1))) as [df|]; [|by auto].
    destruct (fred (state_url (Some c2))) as [df_2|]; [|by auto].
    destruct (fred (state_url (Some c3))) as [df_3|]; [|by auto].
    destruct (fred us_url) as [df_us|]; [|by auto].
    rewrite align_three_error.
    pose proof (aligner_error_kind [df; df_2; df_3] df_us) as Hk.
    destruct (aligner_error [df; df_2; df_3] df_us) as [e|]; cbn [fst snd];
      [by destruct (Hk e eq_refl) as [[->| ->] _]; auto|].
    split; [done|]. do 3 right. eexists. split; [|apply three_figure_invariant].
    by destruct (wants_png view).
Qed.

Lemma builder_not_none (codes : list string) (view : option string)
    (log : list string) :
  (1 ≤ length codes ≤ 3)%nat →
  (builder now_year fred codes view log).1 ≠ Ok PyNone.
Proof.
  intros Hlen.
  destruct (builder_outcome codes view log Hlen) as [_ [H|[H|[H|(fig & H & _)]]]];
    rewrite H; [discriminate..|].
  destruct (wants_png view); discriminate.
Qed.

(** X2. A request that passes validation is deduplicated to its different
    codes in the order of their first appearance and handed to the
    builder for that many states, except that a request with an empty
    slot 2 and another code in slot 3 gets no chart.  The codes handed
    on are pairwise different, one to three in number, all registered,
    and the first one is the path parameter. *)
Theorem request_normal_form (statecode : string)
    (statecode2 statecode3 view : option string) :
  first_offending statecode statecode2 statecode3 = None →
  let codes := distinct_codes statecode statecode2 statecode3 in
  unemployment_visualization now_year fred statecode statecode2 statecode3 view
    = (if gap statecode statecode2 statecode3 then mret PyNone
       else builder now_year fred codes view) ∧
  NoDup codes ∧ (1 ≤ length codes ≤ 3)%nat ∧
  head codes = Some (Py.upper statecode) ∧
  Forall (λ c, in_statecodes c) codes.
Proof.
  intros Hv codes. rewrite endpoint_cases, Hv.
  destruct (distinct_codes_facts statecode statecode2 statecode3)
    as (Hnd & Hlen & Hhd & Hsub).
  subst codes. split; [reflexivity|]. split; [exact Hnd|]. split; [exact Hlen|].
  split; [exact Hhd|].
  apply first_offending_none in Hv. rewrite Forall_forall in Hv.
  apply Forall_forall. intros c Hc. by apply Hv, Hsub.
Qed.

(** X3. On a request with ASCII codes the endpoint raises an HTTP error
    exactly when a validated code is not registered; the status is then
    404, the detail names the first such code, and nothing has been
    retrieved.  No other HTTP error is ever raised. *)
Theorem http_error_iff (statecode : string)
    (statecode2 statecode3 view : option string) (log : list string)
    (status : Z) (detail : string) :
  ascii_request statecode statecode2 statecode3 →
  (unemployment_visualization now_year fred statecode statecode2 statecode3 view log).1
    = Raise (HTTPException status detail)
  ↔ ∃ code, first_offending statecode statecode2 statecode3 = Some code ∧
            status = 404 ∧ detail = "State code " +:+ code +:+ " not found" ∧
            (unemployment_visualization now_year fred statecode statecode2
               statecode3 view log).2 = log.
Proof.
  intros _. rewrite endpoint_cases.
  destruct (first_offending statecode statecode2 statecode3) as [code|] eqn:Ef.
  - cbn [raise fst snd]. split.
    + intros [= <- <-]. by exists code.
    + by intros (? & [= <-] & -> & -> & _).
  - split; [|by intros (? & [=] & _)].
    destruct (gap statecode statecode2 statecode3); [done|].
    destruct (distinct_codes_facts statecode statecode2 statecode3)
      as (_ & Hlen & _).
    destruct (builder_outcome _ view log Hlen) as [_ [H|[H|[H|(fig & H & _)]]]];
      rewrite H; done.
Qed.

(** X4. Among the requests with ASCII codes the endpoint returns [None]
    exactly for those with a registered path parameter, an absent or
    empty statecode2 and a registered statecode3 that differs from the
    path parameter after upper-casing. *)
Theorem none_response_iff (statecode : string)
    (statecode2 statecode3 view : option string) (log : list string) :
  ascii_request statecode statecode2 statecode3 →
  (unemployment_visualization now_year fred statecode statecode2 statecode3 view log).1
    = Ok PyNone
  ↔ in_statecodes (Py.upper statecode) ∧ Py.truthy statecode2 = false ∧
    ∃ code3, statecode3 = Some code3 ∧ in_statecodes (Py.upper code3) ∧
             Py.upper code3 ≠ Py.upper statecode.
Proof.
  intros _. rewrite endpoint_cases.
  destruct (first_offending statecode statecode2 statecode3) as [code|] eqn:Ef.
  - cbn [raise fst]. split; [intros H; discriminate H|].
    intros (H1 & T2 & code3 & -> & H3 & _). exfalso.
    assert (first_offending statecode statecode2 (Some code3) = None) as Hnone;
      [|rewrite Hnone in Ef; discriminate Ef].
    apply first_offending_none. unfold validated.
    destruct (slot_shape statecode2) as [(_ & _ & ->)|(? & _ & T2' & _)];
      [|rewrite T2' in T2; discriminate T2].
    destruct (slot_shape (Some code3)) as [(T3 & _)|(? & [= <-] & _ & _ & -> & _)].
    { apply registered_truthy in H3. rewrite upper_truthy in H3.
      cbn [Py.truthy] in T3. rewrite T3 in H3. discriminate H3. }
    cbn [app]. apply Forall_cons. split; [exact H1|].
    apply Forall_cons. split; [exact H3|]. apply Forall_nil_2.
  - apply first_offending_none in Ef. unfold validated in Ef.
    apply Forall_cons in Ef as [H1 Hrest]. apply Forall_app in Hrest as [_ Hr3].
    destruct (gap statecode statecode2 statecode3) eqn:Eg.
    + cbn [mret io_ret fst]. split; [intros _|reflexivity].
      apply (gap_iff statecode statecode2 statecode3) in Eg
        as (T2 & code3 & -> & T3 & Hne).
      split; [exact H1|]. split; [exact T2|]. exists code3.
      split; [reflexivity|]. split; [|exact Hne].
      unfold slot_codes in Hr3. cbn [Py.truthy] in Hr3. rewrite T3 in Hr3.
      cbn [fmap option_fmap option_map option_list] in Hr3.
      by apply Forall_cons in Hr3 as [Hr3 _].
    + destruct (distinct_codes_facts statecode statecode2 statecode3)
        as (_ & Hlen & _).
      pose proof (builder_not_none _ view log Hlen) as Hb. revert Hb.
      generalize (builder now_year fred
                    (distinct_codes statecode statecode2 statecode3) view log).
      intros res Hb. split; [intros H; by destruct (Hb H)|].
      intros (_ & T2 & code3 & E3 & H3 & Hne). exfalso.
      assert (gap statecode statecode2 statecode3 = true) as Hg;
        [|rewrite Hg in Eg; discriminate Eg].
      apply gap_iff. split; [exact T2|]. exists code3. split; [exact E3|].
      split; [|exact Hne]. apply registered_truthy in H3.
      by rewrite upper_truthy in H3.
Qed.

(** X5. Whatever the request, the endpoint only adds to the log of
    retrievals, at most four of them, and each is the national series or
    the series of a registered state: nothing is ever requested for a
    code that is not in the registry. *)
Theorem retrievals_only_for_registered_codes (statecode : string)
    (statecode2 statecode3 view : option string) (log : list string) :
  ∃ new,
    (unemployment_visualization now_year fred statecode statecode2 statecode3
       view log).2 = log ++ new ∧
    (length new ≤ 4)%nat ∧
    Forall (λ url, url = us_url ∨
                   ∃ code, in_statecodes code ∧ url = state_url (Some code)) new.
Proof.
  rewrite endpoint_cases.
  destruct (first_offending statecode statecode2 statecode3) as [code|] eqn:Ef.
  { exists []. rewrite app_nil_r.
    split; [reflexivity|]. split; [simpl; lia|apply Forall_nil_2]. }
  destruct (gap statecode statecode2 statecode3).
  { exists []. rewrite app_nil_r.
    split; [reflexivity|]. split; [simpl; lia|apply Forall_nil_2]. }
  destruct (distinct_codes_facts statecode statecode2 statecode3)
    as (_ & Hlen & _ & Hsub).
  destruct (builder_outcome _ view log Hlen) as [Hlog _].
  eexists. split; [exact Hlog|].
  set (urls := ((state_url ∘ Some) <$> distinct_codes statecode statecode2 statecode3)
               ++ [us_url]).
  pose proof (attempted_prefix fred urls) as [rest Hpre].
  assert (Forall (λ url, url = us_url ∨
                   ∃ code, in_statecodes code ∧ url = state_url (Some code)) urls)
    as Hall.
  { unfold urls. apply Forall_app.
    split; [|apply Forall_cons; split; [by left|apply Forall_nil_2]].
    apply Forall_fmap, Forall_forall. intros c Hc. right. exists c. split; [|done].
    apply first_offending_none in Ef. rewrite Forall_forall in Ef.
    by apply Ef, Hsub. }
  assert (length urls ≤ 4)%nat as Hlu.
  { unfold urls. rewrite length_app, length_fmap.
    change (length [us_url]) with 1%nat. lia. }
  rewrite Hpre in Hall, Hlu. rewrite length_app in Hlu.
  apply Forall_app in Hall as [Hall _]. split; [lia|done].
Qed.


End endpoint_properties.

(** *** Upper and lower case in the request *)

Lemma cased_T (c : ascii) :
  Py.upper_ascii c = "T"%char → Py.is_cased c = true.
Proof. destruct c as [[] [] [] [] [] [] [] []]; vm_compute; congruence. Qed.

Lemma cased_letter (c : ascii) (x X : ascii) :
  (x, X) ∈ [("r", "R"); ("u", "U"); ("e", "E"); ("t", "T")]%char →
  (Py.lower_ascii c = x ↔ Py.upper_ascii c = X) ∧
  (Py.upper_ascii c = X → Py.is_cased c = true).
Proof.
  rewrite !elem_of_cons, elem_of_nil.
  intros [[= -> ->]|[[= -> ->]|[[= -> ->]|[[= -> ->]|[]]]]];
    destruct c as [[] [] [] [] [] [] [] []]; vm_compute;
    (split; [split|]); congruence.
Qed.

(** X8. The view flag is case-insensitive: a PNG image is asked for
    exactly when the flag is present and reads "true" in any mix of upper
    and lower case; every other value, the empty one included, means
    JSON. *)
Theorem png_flag_iff (view : option string) :
  wants_png view = true ↔ ∃ s, view = Some s ∧ Py.upper s = "TRUE".
Proof.
  assert (Hr := λ c, cased_letter c "r" "R").
  assert (Hu := λ c, cased_letter c "u" "U").
  assert (He := λ c, cased_letter c "e" "E").
  assert (Ht := λ c, cased_letter c "t" "T").
  unfold wants_png. destruct view as [s|]; cbn [Py.truthy fmap option_fmap option_map];
    [|split; [done|by intros (? & [=] & _)]].
  rewrite andb_true_iff, bool_decide_eq_true.
  split.
  - intros [_ [= Hs]]. exists s. split; [done|].
    destruct s as [|c0 [|c1 [|c2 [|c3 [|c4 s]]]]];
      cbn [Py.title Py.title_from Py.upper] in *; try discriminate Hs.
    injection Hs as H0 H1 H2 H3.
    pose proof (cased_T c0 H0) as K0. rewrite K0 in H1.
    destruct (Hr c1) as [Hr1 Hr2]; [apply (bool_decide_unpack _); by vm_compute|].
    apply Hr1 in H1. rewrite (Hr2 H1) in H2.
    destruct (Hu c2) as [Hu1 Hu2]; [apply (bool_decide_unpack _); by vm_compute|].
    apply Hu1 in H2. rewrite (Hu2 H2) in H3.
    destruct (He c3) as [He1 _]; [apply (bool_decide_unpack _); by vm_compute|].
    apply He1 in H3. by rewrite H0, H1, H2, H3.
  - intros (s' & [= <-] & Hs).
    destruct s as [|c0 [|c1 [|c2 [|c3 [|c4 s]]]]];
      cbn [Py.title Py.title_from Py.upper Py.truthy_str] in *; try discriminate Hs.
    injection Hs as H0 H1 H2 H3. split; [done|].
    destruct (Ht c0) as [_ Ht2]; [apply (bool_decide_unpack _); by vm_compute|].
    destruct (Hr c1) as [Hr1 Hr2]; [apply (bool_decide_unpack _); by vm_compute|].
    destruct (Hu c2) as [Hu1 Hu2]; [apply (bool_decide_unpack _); by vm_compute|].
    destruct (He c3) as [He1 _]; [apply (bool_decide_unpack _); by vm_compute|].
    rewrite (Ht2 H0), (Hr2 H1), (Hu2 H2), H0.
    apply Hr1 in H1. apply Hu1 in H2. apply He1 in H3.
    by rewrite H1, H2, H3.
Qed.

Lemma slot_codes_upper (c c' : option string) :
  Py.upper <$> c = Py.upper <$> c' → slot_codes c = slot_codes c'.
Proof.
  intros E. unfold slot_codes. rewrite E.
  replace (Py.truthy c) with (Py.truthy c'); [done|].
  destruct c as [s|], c' as [s'|]; try done.
  injection E as E. cbn [Py.truthy].
  by rewrite <- (upper_truthy s), <- (upper_truthy s'), E.
Qed.

Section case_insensitive.

Context `{numpy : !np.Mean}.

(** X7. State codes are case-insensitive: two requests whose codes agree
    after upper-casing get the same response, the same error and the
    same retrievals. *)
Theorem codes_case_insensitive (now_year : Z) (fred : string → option DataFrame)
    (statecode statecode' : string)
    (statecode2 statecode2' statecode3 statecode3' view : option string) :
  Py.upper statecode = Py.upper statecode' →
  Py.upper <$> statecode2 = Py.upper <$> statecode2' →
  Py.upper <$> statecode3 = Py.upper <$> statecode3' →
  unemployment_visualization now_year fred statecode statecode2 statecode3 view
  = unemployment_visualization now_year fred statecode' statecode2' statecode3' view.
Proof.
  intros E1 E2%slot_codes_upper E3%slot_codes_upper.
  rewrite !endpoint_cases.
  unfold first_offending, validated, gap, distinct_codes.
  rewrite E1, E2, E3.
  replace (Py.truthy statecode2) with (Py.truthy statecode2'); [done|].
  unfold slot_codes in E2.
  destruct statecode2 as [[|a s]|], statecode2' as [[|a' s']|];
    cbn [Py.truthy Py.truthy_str] in *; done.
Qed.

End case_insensitive.

(** ** The embedding on examples

    From here on [np.mean] is the left-to-right mean in double precision.
    The year is 2026, so the window is 2021.  The trailing means are
    California 5, New York 4, Texas 3 and Oregon 5; the national series
    aligned with California or with New York has trailing mean 4. *)

#[global] Existing Instance left_to_right.

Example trailing_mean_demo :
  trailing_mean 2026 df_CA = Py.of_Z 5 ∧
  trailing_mean 2026 df_NY = Py.of_Z 4 ∧
  trailing_mean 2026 header_only = Py.NaN ∧
  mean_5yrs 2026 df_CA = Ok (Py.of_Z 5) ∧
  mean_5yrs 2026 header_only = Raise AttributeError.
Proof. by vm_compute. Qed.

(** The mean of 3.1 and 3.7 in double precision is 3.4000000000000004,
    which is above the double 3.4; the mean of 0.1 and 0.7 is
    0.39999999999999997, the double that 0.39999999999999998 denotes. *)
Example mean_rounds :
  np.mean [three_point_one; three_point_seven] = Py.double 0x1b333333333334 (-51) ∧
  Py.gt (np.mean [three_point_one; three_point_seven]) (np.mean [three_point_four]) ∧
  Py.eq (np.mean [Py.double 0x1999999999999a (-56); Py.double 0x16666666666666 (-53)])
        (Py.double 0x19999999999999 (-54)).
Proof. by vm_compute. Qed.

(** A frame without observations: the accessor of its Date column is
    missing, whichever frame it is. *)
Example header_only_frames :
  align_single header_only df_US = Raise AttributeError ∧
  align_single df_CA header_only = Raise AttributeError ∧
  align_single (observations []) df_US = Raise ValueError ∧
  (single 2026 fred_header_only "CA" None []).1 = Raise AttributeError.
Proof. by vm_compute. Qed.

(** ** Counterexamples *)

(** The aligner does not take each minimum over all the state series
    together: with state series that start in 1976, 1980 and 1976 the
    pooled minimum year is 1976, yet [three] drops the national
    observation of 1978. *)
Lemma aligner_pooled_minimum_fails :
  align_three (observations [obs 1976 1 1 5]) (observations [obs 1980 1 1 5])
              (observations [obs 1976 1 1 5]) (observations [obs 1978 1 1 6])
  ≠ Ok (align_pooled [observations [obs 1976 1 1 5]; observations [obs 1980 1 1 5];
                      observations [obs 1976 1 1 5]]
                     (observations [obs 1978 1 1 6])).
Proof. vm_compute. intros H. discriminate H. Qed.

(** With two unregistered codes only the first one is reported: for
    statecode = "ZZ" and statecode3 = "QQ" the detail is
    'State code ZZ not found', which does not contain "QQ". *)
Lemma later_code_not_in_detail :
  ¬ (∀ slot : option string,
       slot ∈ [Some "ZZ"; None; Some "QQ"] →
       Py.truthy slot →
       ¬ opt_in_statecodes (Py.upper <$> slot) →
       ∃ detail,
         unemployment_visualization 2026 nothing_served "ZZ" None (Some "QQ") None []
           = (Raise (HTTPException 404 detail), []) ∧
         contains (Py.fmt (Py.upper <$> slot)) detail).
Proof.
  intros H.
  destruct (H (Some "QQ")) as (detail & Hrun & Hc).
  - set_solver.
  - by vm_compute.
  - by vm_compute.
  - vm_compute in Hrun. injection Hrun as <-. by vm_compute in Hc.
Qed.

(** A state series whose only observation is of June 2021, at 4 percent,
    and a national series with 1 percent in January 2021 and 7 percent in
    June 2021: the two trailing means are equal (4), but the aligner
    drops the national observation of January, [single] compares 4 with
    7, and the chart is the 'Lower' one, with the national series red. *)
Lemma tie_with_national_mean_not_same :
  Py.eq (trailing_mean 2026 (june 4)) (trailing_mean 2026 df_national) ∧
  ∃ fig,
    single 2026 (fred_june 4) "CA" None []
      = (Ok (to_json fig), [state_url (Some "CA"); us_url]) ∧
    title_of fig = Some
      "California Unemployment Rates Averaged Lower than the United States since 2021." ∧
    legend fig = [(Some "California", Some "#4BB543");
                  (Some "United States", Some "#CC0000")].
Proof.
  split; [by vm_compute|].
  destruct (single_run 2026 (fred_june 4) "CA" None (june 4) df_national [])
    as (fig & R & T & L & _); [reflexivity | reflexivity | exact I | exact I |].
  exists fig. split; [exact R|].
  vm_compute in T. vm_compute in L. split; [exact T | exact L].
Qed.

(** The same series with 5 percent for the state: the percentages of the
    window year average 5 for the state and 4 for the national series, but
    the title of the chart is not the one that the comparison of 5 with 4
    selects: the national mean that [single] uses is taken after the
    aligner has dropped the observation of January. *)
Lemma national_mean_after_alignment :
  let mean_of (series : list Row) := np.mean (window 2021 series) in
  mean_of (june 5) = Py.of_Z 5 ∧
  mean_of df_national = Py.of_Z 4 ∧
  ∃ fig,
    (single 2026 (fred_june 5) "CA" None []).1 = Ok (to_json fig) ∧
    title_of fig
      ≠ single_style 2026 (Some "California") (mean_of (june 5)) (mean_of df_national)
          !! "title".
Proof.
  intros mean_of. split; [by vm_compute|]. split; [by vm_compute|].
  destruct (single_run 2026 (fred_june 5) "CA" None (june 5) df_national [])
    as (fig & R & T & _); [reflexivity | reflexivity | exact I | exact I |].
  exists fig. rewrite R. split; [reflexivity|].
  intros E. rewrite T in E. vm_compute in E. discriminate E.
Qed.

(** GET /viz/CA with a trailing mean of 5.0 for California and of 4.0 for
    the national series: the chart is the 'Lower' one, California green
    and the United States red. *)
Lemma california_above_national_mean_lower :
  trailing_mean 2026 (june 5) = Py.of_Z 5 ∧
  trailing_mean 2026 df_national = Py.of_Z 4 ∧
  ∃ fig,
    unemployment_visualization 2026 (fred_june 5) "CA" None None None []
      = (Ok (to_json fig), [state_url (Some "CA"); us_url]) ∧
    title_of fig = Some
      "California Unemployment Rates Averaged Lower than the United States since 2021." ∧
    legend fig = [(Some "California", Some "#4BB543");
                  (Some "United States", Some "#CC0000")].
Proof.
  split; [by vm_compute|]. split; [by vm_compute|].
  destruct (single_run 2026 (fred_june 5) "CA" None (june 5) df_national [])
    as (fig & R & T & L & _); [reflexivity | reflexivity | exact I | exact I |].
  exists fig. split.
  - transitivity (single 2026 (fred_june 5) "CA" None []); [by vm_compute | exact R].
  - vm_compute in T. vm_compute in L. split; [exact T | exact L].
Qed.

(** ** Instances on the example provider *)


(** (ca, ny, Ca): code1 = code3, so slot 3 is dropped. *)
Lemma dedup_precedence_witness :
  unemployment_visualization 2026 fred_demo "ca" (Some "ny") (Some "Ca") None
  = two 2026 fred_demo "CA" (Some "NY") None.
Proof.
  destruct (dedup_precedence 2026 fred_demo "ca" "ny" "Ca" None) as [H _].
  - by vm_compute.
  - by vm_compute.
  - by vm_compute.
  - rewrite H. reflexivity.
Defined.

(** Oregon's only observation is of March 2021: aligned with California,
    Oregon and New York the national series keeps nothing, although it
    has observations of 2021. *)
Lemma aligner_fieldwise_witness :
  align_three df_CA df_OR df_NY df_US = Ok (observations []) ∧
  align_single df_CA df_US = Ok (observations [obs 2021 1 1 4; obs 2021 2 1 4]).
Proof.
  destruct (aligner_fieldwise df_CA df_OR df_NY df_US) as (H1 & _ & H3 & _).
  - exact I.
  - exact I.
  - exact I.
  - exact I.
  - rewrite H1, H3. split; f_equal.
Defined.

(** Two unregistered codes: the first one, in slot 2, is reported. *)
Lemma unknown_code_404_witness :
  unemployment_visualization 2026 nothing_served "ca" (Some "zz") (Some "qq") None []
  = (Raise (HTTPException 404 "State code ZZ not found"), []).
Proof.
  destruct (unknown_code_404 2026 nothing_served "ca" (Some "zz") (Some "qq") None [])
    as (code & Hf & _ & Hrun & _).
  - apply (bool_decide_unpack _). by vm_compute.
  - exists (Some "qq"). split; [|split].
    + set_solver.
    + by vm_compute.
    + by vm_compute.
  - vm_compute in Hf. injection Hf as <-. exact Hrun.
Defined.

(** California (5) against New York (4), both ways round. *)
Lemma two_antisymmetric_witness :
  ∃ figAB figBA,
    two 2026 fred_demo "CA" (Some "NY") None []
      = (Ok (to_json figAB), [state_url (Some "CA"); state_url (Some "NY"); us_url]) ∧
    two 2026 fred_demo "NY" (Some "CA") None []
      = (Ok (to_json figBA), [state_url (Some "NY"); state_url (Some "CA"); us_url]) ∧
    title_of figAB
      = Some "California Averaged Higher Unemployment than New York since 2021." ∧
    title_of figBA
      = Some "New York Averaged Lower Unemployment than California since 2021." ∧
    legend figAB = [(Some "California", Some "#CC0000"); (Some "New York", Some "#4BB543");
                    (Some "United States", Some "black")] ∧
    legend figBA = [(Some "New York", Some "#4BB543"); (Some "California", Some "#CC0000");
                    (Some "United States", Some "black")].
Proof.
  destruct (two_antisymmetric 2026 fred_demo "CA" "NY" None df_CA df_NY df_US [])
    as (figAB & figBA & RAB & RBA & TAB & TBA & LAB & LBA & _).
  - reflexivity.
  - reflexivity.
  - reflexivity.
  - exact I.
  - exact I.
  - exact I.
  - by vm_compute.
  - exists figAB, figBA.
    split; [exact RAB|]. split; [exact RBA|]. split; [exact TAB|].
    split; [exact TBA|]. split; [exact LAB|exact LBA].
Defined.

(** California and Oregon are tied at 5; New York is tied with the
    aligned national series at 4. *)
Lemma tie_selects_same_witness :
  (∃ fig,
     two 2026 fred_demo "CA" (Some "OR") None []
       = (Ok (to_json fig), [state_url (Some "CA"); state_url (Some "OR"); us_url]) ∧
     title_of fig
       = Some "California and Oregon Averaged the Same Unemployment since 2021." ∧
     legend fig = [(Some "California", Some "#4BB543"); (Some "Oregon", Some "darkcyan");
                   (Some "United States", Some "black")]) ∧
  (∃ fig,
     single 2026 fred_demo "NY" None []
       = (Ok (to_json fig), [state_url (Some "NY"); us_url]) ∧
     title_of fig
       = Some "New York Averaged the Same Unemployment as the United States since 2021." ∧
     legend fig = [(Some "New York", Some "#4BB543");
                   (Some "United States", Some "darkcyan")]).
Proof.
  split.
  - destruct (tie_selects_same 2026 fred_demo "CA" "OR" None df_CA df_OR df_US [])
      as [Htwo _]; [reflexivity | reflexivity | reflexivity | exact I | exact I | exact I |].
    destruct Htwo as (fig & R & T & _ & _ & L); [by vm_compute|].
    exists fig. split; [exact R|]. split; [exact T|exact L].
  - destruct (tie_selects_same 2026 fred_demo "NY" "NY" None df_NY df_NY df_US [])
      as [_ Hone]; [reflexivity | reflexivity | reflexivity | exact I | exact I | exact I |].
    destruct Hone as (fig & R & T & _ & _ & L); [by vm_compute|].
    exists fig. split; [exact R|]. split; [exact T|exact L].
Defined.

(** California and Oregon are tied: the chart has no title and no colors. *)
Lemma three_tie_unset_witness :
  ∃ fig,
    three 2026 fred_demo "CA" (Some "OR") (Some "NY") None []
      = (Ok (to_json fig),
         [state_url (Some "CA"); state_url (Some "OR"); state_url (Some "NY"); us_url]) ∧
    title_of fig = None ∧
    legend fig = [(Some "California", None); (Some "United States", None);
                  (Some "Oregon", None); (Some "New York", None)].
Proof.
  destruct (three_tie_unset 2026 fred_demo "CA" (Some "OR") (Some "NY") None
              df_CA df_OR df_NY df_US [])
    as (_ & _ & fig & R & T & L & _).
  - reflexivity.
  - reflexivity.
  - reflexivity.
  - reflexivity.
  - exact I.
  - exact I.
  - exact I.
  - exact I.
  - left. by vm_compute.
  - exists fig. split; [exact R|]. split; [exact T|exact L].
Defined.

(** The means that [single], [two] and [three] compare on the example
    provider: California 5, New York 4, Texas 3, and 4 for the national
    series aligned with California. *)
Lemma trailing_mean_window_witness :
  np.mean (window 2021 df_CA) = Py.of_Z 5 ∧
  np.mean (window 2021 df_NY) = Py.of_Z 4 ∧
  np.mean (window 2021 df_TX) = Py.of_Z 3 ∧
  np.mean (window 2021 (select (meets_start df_CA) df_US)) = Py.of_Z 4 ∧
  ∃ fig,
    (single 2026 fred_demo "CA" None []).1 = Ok (to_json fig) ∧
    title_of fig = Some
      "California Unemployment Rates Averaged Higher than the United States since 2021.".
Proof.
  destruct (trailing_mean_window 2026 fred_demo "CA" (Some "NY") (Some "TX") None
              df_CA df_NY df_TX df_US [])
    as ((fig & R & T & _) & _).
  - reflexivity.
  - reflexivity.
  - reflexivity.
  - reflexivity.
  - exact I.
  - exact I.
  - exact I.
  - exact I.
  - split; [by vm_compute|]. split; [by vm_compute|]. split; [by vm_compute|].
    split; [by vm_compute|].
    exists fig. split; [exact R|]. vm_compute in T. exact T.
Defined.

(** GET /viz/CA on the example provider. *)
Lemma california_higher_witness :
  ∃ fig,
    unemployment_visualization 2026 fred_demo "CA" None None None []
      = (Ok (to_json fig), [state_url (Some "CA"); us_url]) ∧
    title_of fig = Some
      "California Unemployment Rates Averaged Higher than the United States since 2021." ∧
    legend fig = [(Some "California", Some "#CC0000");
                  (Some "United States", Some "#4BB543")].
Proof.
  destruct (california_higher 2026 fred_demo None df_CA df_US [])
    as (fig & R & T & L & _).
  - reflexivity.
  - reflexivity.
  - exact I.
  - exact I.
  - by vm_compute.
  - by vm_compute.
  - exists fig. split; [exact R|]. split; [exact T|exact L].
Defined.

(** GET /viz/ca?statecode3=ny *)
Lemma skipped_slot_returns_none_witness :
  unemployment_visualization 2026 fred_demo "ca" None (Some "ny") None []
  = (Ok PyNone, []).
Proof.
  destruct (skipped_slot_returns_none 2026 fred_demo "ca" "ny" None None [])
    as [_ H].
  - by vm_compute.
  - by vm_compute.
  - discriminate.
  - reflexivity.
  - exact H.
Defined.

(** ** Further instances on the example provider *)

(** X10, an instance. Every series is served without observations: the
    handlers raise [AttributeError]. *)
Lemma served_frames_outcome_witness :
  (single 2026 fred_header_only "CA" None []).1 = Raise AttributeError ∧
  (three 2026 fred_header_only "CA" (Some "NY") (Some "TX") None []).1
    = Raise AttributeError.
Proof.
  destruct (served_frames_outcome 2026 fred_header_only "CA" (Some "NY") (Some "TX")
              None header_only header_only header_only header_only [])
    as (H1 & _ & H3 & _).
  - reflexivity.
  - reflexivity.
  - reflexivity.
  - reflexivity.
  - rewrite H1, H3. split; reflexivity.
Defined.

(** X12, an instance. Aligned with California, New York and Texas the
    national series keeps its two observations of 2021. *)
Lemma align_keeps_order_and_is_idempotent_witness :
  [obs 2021 1 1 4; obs 2021 2 1 4] `sublist_of` df_US ∧
  align_three df_CA df_NY df_TX (observations [obs 2021 1 1 4; obs 2021 2 1 4])
    = Ok (observations [obs 2021 1 1 4; obs 2021 2 1 4]).
Proof.
  destruct (align_keeps_order_and_is_idempotent df_CA df_NY df_TX df_US
              (observations [obs 2021 1 1 4; obs 2021 2 1 4])) as (H1 & _ & H3).
  - by vm_compute.
  - split; [exact H1|exact H3].
Defined.

(** X13, an instance. The Texas series starts on 1 January 2021. *)
Lemma align_january_start_witness :
  align_single df_TX df_US = Ok (from_date (mkTimestamp 2021 1 1) df_US).
Proof.
  destruct (align_january_start df_TX df_US) as (y & Hy & _ & H).
  - apply (bool_decide_unpack _). by vm_compute.
  - apply (bool_decide_unpack _). by vm_compute.
  - exact I.
  - apply (bool_decide_unpack _). by vm_compute.
  - injection Hy as <-. exact H.
Defined.

(** X15, an instance. California (5) is above the national mean (4), Texas
    (3) below. *)
Lemma single_compares_witness :
  (∃ fig,
     single 2026 fred_demo "CA" None []
       = (Ok (to_json fig), [state_url (Some "CA"); us_url]) ∧
     legend fig = [(Some "California", Some "#CC0000");
                   (Some "United States", Some "#4BB543")]) ∧
  (∃ fig,
     single 2026 fred_demo "TX" None []
       = (Ok (to_json fig), [state_url (Some "TX"); us_url]) ∧
     title_of fig = Some
       "Texas Unemployment Rates Averaged Lower than the United States since 2021." ∧
     legend fig = [(Some "Texas", Some "#4BB543");
                   (Some "United States", Some "#CC0000")]).
Proof.
  split.
  - destruct (single_compares 2026 fred_demo "CA" None df_CA df_US [])
      as [Hhigher _]; [reflexivity | reflexivity | exact I | exact I |].
    destruct Hhigher as (fig & R & _ & L); [by vm_compute|].
    exists fig. split; [exact R|exact L].
  - destruct (single_compares 2026 fred_demo "TX" None df_TX df_US [])
      as [_ Hlower]; [reflexivity | reflexivity | exact I | exact I |].
    destruct Hlower as (fig & R & T & L); [by vm_compute|].
    exists fig. split; [exact R|]. split; [exact T|exact L].
Defined.

(** X2, an instance. GET /viz/ca?statecode2=&statecode3=ca is the request
    for California alone. *)
Lemma request_normal_form_witness :
  unemployment_visualization 2026 fred_demo "ca" (Some "") (Some "ca") None
  = single 2026 fred_demo "CA" None.
Proof.
  destruct (request_normal_form 2026 fred_demo "ca" (Some "") (Some "ca") None)
    as [H _].
  - by vm_compute.
  - rewrite H. reflexivity.
Defined.

(** X3, an instance. GET /viz/ca?statecode2=zz&statecode3=qq: the error
    names ZZ, the first code that is not registered. *)
Lemma http_error_iff_witness :
  (unemployment_visualization 2026 fred_demo "ca" (Some "zz") (Some "qq") None []).1
  = Raise (HTTPException 404 "State code ZZ not found").
Proof.
  apply (http_error_iff 2026 fred_demo "ca" (Some "zz") (Some "qq") None []
           404 "State code ZZ not found").
  - apply (bool_decide_unpack _). by vm_compute.
  - exists "ZZ". split_and!; by vm_compute.
Defined.

(** X4, an instance. GET /viz/ca?statecode3=ny returns [None]. *)
Lemma none_response_iff_witness :
  (unemployment_visualization 2026 fred_demo "ca" None (Some "ny") None []).1 = Ok PyNone.
Proof.
  apply (none_response_iff 2026 fred_demo "ca" None (Some "ny") None []).
  - apply (bool_decide_unpack _). by vm_compute.
  - split; [by vm_compute|]. split; [reflexivity|].
    exists "ny". split; [reflexivity|]. split; [by vm_compute|discriminate].
Defined.


(** X7, an instance. /viz/ca?statecode2=ny and /viz/CA?statecode2=Ny are
    the same request. *)
Lemma codes_case_insensitive_witness :
  unemployment_visualization 2026 fred_demo "ca" (Some "ny") None None
  = unemployment_visualization 2026 fred_demo "CA" (Some "Ny") None None.
Proof.
  apply (codes_case_insensitive 2026 fred_demo); reflexivity.
Defined.
